(** * ButtplugServer: session gate, dispatcher and outgoing channel

    A shallow embedding of [src/server/ButtplugServer.ts].  The server object
    is a record that is threaded through [SendMessage]; the side effects
    of [OnOutgoingMessage] (what it returns, what it hands to [emit],
    what comes back to it through the logger and [OnLogMessage]) are
    collected in an [Outcome].  The classes of [core/Messages],
    [core/Logging] and [DeviceManager] are imported by the server and are
    not part of the embedded file: they appear as an inductive type of
    messages, three small interfaces and a few modelled helpers. *)

From Stdlib Require Import ZArith NArith List String Bool Lia DecimalString.
Import ListNotations.

Local Open Scope string_scope.
Local Open Scope Z_scope.

(** ** Messages *)

(** Modelled from the spec: the error classes of [Messages.ErrorClass] that
    the server names ([ERROR_INIT], [ERROR_MSG]); [ERROR_OTHER] stands for
    every class the server never mentions. *)
Inductive ErrorClass : Type :=
| ERROR_INIT
| ERROR_MSG
| ERROR_OTHER (code : N).

(** The class names that [SendMessage] and [OnOutgoingMessage] build or
    switch on.  A message of any other class carries its own class name,
    which is none of these. *)
Definition core_class (name : string) : bool :=
  existsb (String.eqb name)
    ["Ok"; "Error"; "Ping"; "Test"; "RequestLog"; "Log";
     "RequestServerInfo"; "ServerInfo"].

(** Modelled from the spec: the message classes of [core/Messages], one
    constructor per class the server inspects or builds, with the fields
    the server reads and the argument order of the constructor calls in
    the source.  [Other] is every remaining class (the device commands);
    its last field says that its name is not one of the core names, so
    that the tag [Type] determines the class, as [constructor.name] does.
    Ids are integers, and so is the version a RequestServerInfo
    declares: the server stores it as it comes, negative or not. *)
Inductive ButtplugMessage : Type :=
| Ok (Id : Z)
| Error (ErrorMessage : string) (ErrorCode : ErrorClass) (Id : Z)
| Ping (Id : Z)
| Test (TestString : string) (Id : Z)
| RequestLog (LogLevel : string) (Id : Z)
| Log (LogLevel : string) (LogMessage : string) (Id : Z)
| RequestServerInfo (ClientName : string) (MessageVersion : Z) (Id : Z)
| ServerInfo (MajorVersion MinorVersion BuildVersion MessageVersion
              MaxPingTime : N) (ServerName : string) (Id : Z)
| Other (name : string) (Id : Z) (Body : string)
        (fresh : core_class name = false).

Definition Id (m : ButtplugMessage) : Z :=
  match m with
  | Ok i | Error _ _ i | Ping i | Test _ i | RequestLog _ i | Log _ _ i
  | RequestServerInfo _ _ i | ServerInfo _ _ _ _ _ _ i | Other _ i _ _ => i
  end.

Definition Type_ (m : ButtplugMessage) : string :=
  match m with
  | Ok _ => "Ok"
  | Error _ _ _ => "Error"
  | Ping _ => "Ping"
  | Test _ _ => "Test"
  | RequestLog _ _ => "RequestLog"
  | Log _ _ _ => "Log"
  | RequestServerInfo _ _ _ => "RequestServerInfo"
  | ServerInfo _ _ _ _ _ _ _ => "ServerInfo"
  | Other name _ _ _ => name
  end.

(** What the server uses of a message beyond its fields: the schema
    revision of its class (0, 1, 2, ...; 0 is a class without revisions),
    the older equivalent it downgrades to, and the class and id that
    [new Messages.Error(text)] takes when none is given.  They are defined
    in [core/Messages] and are parameters here. *)
Class MessageSchema : Type := {
  SchemaVersion : ButtplugMessage -> N;
  DowngradeMessage : ButtplugMessage -> ButtplugMessage;
  DefaultErrorClass : ErrorClass;
  DefaultErrorId : Z
}.

(** ** Logging *)

(** Modelled from the spec: the levels of [Logging.LogLevel]. *)
Inductive LogLevel : Type :=
| Off | Trace | Debug | Info | Warn | LError.

(** [LogLevel[name]]: the level called [name].  [None] when no level has
    that name: the lookup then yields no level ([undefined], or a name
    when [name] spells a level's number), and in particular not
    [LogLevel.Off]. *)
Definition LogLevel_of_name (name : string) : option LogLevel :=
  if (name =? "Off")%string then Some Off
  else if (name =? "Trace")%string then Some Trace
  else if (name =? "Debug")%string then Some Debug
  else if (name =? "Info")%string then Some Info
  else if (name =? "Warn")%string then Some Warn
  else if (name =? "Error")%string then Some LError
  else None.

(** [this._outgoingLogLevel === LogLevel.Off] *)
Definition is_Off (l : option LogLevel) : bool :=
  match l with
  | Some Off => true
  | _ => false
  end.

(** The listeners of the logger's "log" event.  [OnLogMessage] is the
    bound method of this server; the logger is shared, so listeners of
    other owners may be registered as well. *)
Inductive Listener : Type :=
| OnLogMessage
| Foreign (n : nat).

Definition Listener_eqb (a b : Listener) : bool :=
  match a, b with
  | OnLogMessage, OnLogMessage => true
  | Foreign n, Foreign k => Nat.eqb n k
  | _, _ => false
  end.

(** [EventEmitter.addListener]: the listener goes to the end of the
    array, whether it is already there or not. *)
Definition addListener (l : Listener) (ls : list Listener) : list Listener :=
  ls ++ [l].

(** [EventEmitter.removeListener]: at most one instance is removed, the
    most recently added one. *)
Fixpoint removeListener (l : Listener) (ls : list Listener) : list Listener :=
  match ls with
  | [] => []
  | x :: rest =>
      if existsb (Listener_eqb l) rest then x :: removeListener l rest
      else if Listener_eqb l x then rest
      else x :: rest
  end.

Record ButtplugLogger : Type := mkLogger {
  MaximumLogLevel : LogLevel;
  ConsoleLogging : bool;
  listeners : list Listener
}.

(** The listeners of the "log" event that belong to other owners. *)
Definition foreign_listeners (lg : ButtplugLogger) : list Listener :=
  filter (fun x => negb (Listener_eqb OnLogMessage x)) (listeners lg).

(** An entry of the log, as the logger hands it to the listeners of its
    "log" event: the fields [LogLevel] and [Message] that [OnLogMessage]
    reads. *)
Record LogMessage : Type := mkLogMessage {
  LogMessage_LogLevel : LogLevel;
  Message : string
}.

(** [LogLevel[level]]: the name of a level. *)
Definition LogLevel_name (level : LogLevel) : string :=
  match level with
  | Off => "Off"
  | Trace => "Trace"
  | Debug => "Debug"
  | Info => "Info"
  | Warn => "Warn"
  | LError => "Error"
  end.

(** What [core/Logging] and [core/Messages] fix and the server relies
    on: the number behind each level, which [OnLogMessage] compares;
    whether the logger, as it is configured, hands an entry of a level to
    its "log" listeners; and the id that [new Messages.Log(level, text)]
    takes.  They are parameters here. *)
Class LoggingApi : Type := {
  LogLevel_value : LogLevel -> Z;
  Logger_emits : ButtplugLogger -> LogLevel -> bool;
  DefaultLogId : Z
}.

(** The calls of [OnLogMessage] that one "log" event makes: the logger
    calls its listeners in the order of registration, this server's
    [OnLogMessage] once for each time it is registered.  [relayed] is what
    one such call emits ([None]: the call does not return); the listeners
    of other owners emit nothing on this server. *)
Fixpoint relay_each (ls : list Listener)
    (relayed : option (list ButtplugMessage))
  : option (list ButtplugMessage) :=
  match ls with
  | [] => Some []
  | OnLogMessage :: rest =>
      match relayed, relay_each rest relayed with
      | Some first, Some others => Some (first ++ others)%list
      | _, _ => None
      end
  | Foreign _ :: rest => relay_each rest relayed
  end.

(** Modelled from the spec: [ButtplugLogger.Error] of [core/Logging]
    makes an entry of level Error out of the text and, when the logger
    emits entries of that level, hands it to every "log" listener.
    [onLog] is what this server's [OnLogMessage] emits on an entry. *)
Definition ButtplugLogger_Error {LG : LoggingApi} (lg : ButtplugLogger)
    (onLog : LogMessage -> option (list ButtplugMessage)) (aMsg : string)
  : option (list ButtplugMessage) :=
  if Logger_emits lg LError
  then relay_each (listeners lg) (onLog (mkLogMessage LError aMsg))
  else Some [].

(** Modelled from the spec: [ButtplugLogger.LogAndError] of
    [core/Logging] writes the text to the log at error level and returns
    [new Messages.Error(text, class, id)].  What the listeners of the
    logger do with the entry is not part of the value returned. *)
Definition LogAndError (aMsg : string) (aClass : ErrorClass) (aId : Z)
  : ButtplugMessage :=
  Error aMsg aClass aId.

(** ** Device manager *)

(** The device-command handler, a collaborator the server only calls. *)
Class DeviceManagerApi : Type := {
  DeviceManager : Type;
  IDeviceSubtypeManager : Type;
  DeviceManager_new : DeviceManager;
  DeviceManager_AddDeviceManager :
    DeviceManager -> IDeviceSubtypeManager -> DeviceManager;
  DeviceManager_SendMessage :
    DeviceManager -> ButtplugMessage -> DeviceManager * ButtplugMessage
}.

(** ** The server *)

Section Server.

Context {DM : DeviceManagerApi}.

Record ButtplugServer : Type := mkServer {
  _clientSchemaVersion : Z;
  _clientName : option string;
  _deviceManager : DeviceManager;
  _pingTimedOut : bool;
  _receivedRequestServerInfo : bool;
  _logger : ButtplugLogger;
  _outgoingLogLevel : option LogLevel;
  _serverName : string;
  _maxPingTime : N
}.

(** The constructor.  [aLogger] is the shared [ButtplugLogger.Logger] as
    it is when the server is created.  The line written with
    [_logger.Info] and the registration of [OnOutgoingMessage] on
    [ServerMessageHub] leave the record as it is. *)
Definition new_ButtplugServer (aServerName : string) (aMaxPingTime : N)
    (aLogger : ButtplugLogger) : ButtplugServer :=
  {| _clientSchemaVersion := -1;
     _clientName := None;
     _deviceManager := DeviceManager_new;
     _pingTimedOut := false;
     _receivedRequestServerInfo := false;
     _logger := mkLogger Debug true (listeners aLogger);
     _outgoingLogLevel := Some Off;
     _serverName := aServerName;
     _maxPingTime := aMaxPingTime |}.

Definition default_server_name : string := "Buttplug JS Internal Server".

Definition AddDeviceManager (srv : ButtplugServer)
    (aManager : IDeviceSubtypeManager) : ButtplugServer :=
  {| _clientSchemaVersion := _clientSchemaVersion srv;
     _clientName := _clientName srv;
     _deviceManager :=
       DeviceManager_AddDeviceManager (_deviceManager srv) aManager;
     _pingTimedOut := _pingTimedOut srv;
     _receivedRequestServerInfo := _receivedRequestServerInfo srv;
     _logger := _logger srv;
     _outgoingLogLevel := _outgoingLogLevel srv;
     _serverName := _serverName srv;
     _maxPingTime := _maxPingTime srv |}.

(** The two branches of the "RequestLog" case that touch the logger. *)
Definition toggle_log_listener (srv : ButtplugServer) (aLogLevel : string)
  : ButtplugLogger :=
  let lg := _logger srv in
  if (aLogLevel =? "Off")%string then
    mkLogger (MaximumLogLevel lg) (ConsoleLogging lg)
             (removeListener OnLogMessage (listeners lg))
  else if is_Off (_outgoingLogLevel srv) then
    mkLogger (MaximumLogLevel lg) (ConsoleLogging lg)
             (addListener OnLogMessage (listeners lg))
  else lg.

(** The digits a template literal prints for an integer (exact below
    10^21, where JavaScript switches to the exponent form). *)
Definition string_of_Z (z : Z) : string :=
  NilZero.string_of_int (Z.to_int z).

(** [SendMessage] returns the server after the call and the message the
    promise resolves to.  The entries it writes to the log
    ([_logger.Trace], [LogAndError]) change neither. *)
Definition SendMessage (srv : ButtplugServer) (aMessage : ButtplugMessage)
  : ButtplugServer * ButtplugMessage :=
  let id := Id aMessage in
  if id =? 0 then
    (srv, LogAndError
            "Message Id 0 is reserved for outgoing system messages. Please use another Id."
            ERROR_MSG id)
  else if _pingTimedOut srv then
    (srv, LogAndError "Ping timed out." ERROR_MSG id)
  else if negb (_receivedRequestServerInfo srv)
          && negb (Type_ aMessage =? "RequestServerInfo")%string then
    (srv, LogAndError
            "RequestServerInfo must be first message received by server."
            ERROR_INIT id)
  else
    match aMessage with
    | RequestLog aLogLevel logId =>
        ({| _clientSchemaVersion := _clientSchemaVersion srv;
            _clientName := _clientName srv;
            _deviceManager := _deviceManager srv;
            _pingTimedOut := _pingTimedOut srv;
            _receivedRequestServerInfo := _receivedRequestServerInfo srv;
            _logger := toggle_log_listener srv aLogLevel;
            _outgoingLogLevel := LogLevel_of_name aLogLevel;
            _serverName := _serverName srv;
            _maxPingTime := _maxPingTime srv |},
         Ok logId)
    | Ping pingId => (srv, Ok pingId)
    | RequestServerInfo aClientName aMessageVersion _ =>
        if 1 <? _clientSchemaVersion srv then
          (srv, Error ("Client schema ("
                         ++ string_of_Z (_clientSchemaVersion srv)
                         ++ ") newer than server schema (1). "
                         ++ "Please upgrade server.")
                      ERROR_INIT id)
        else
          ({| _clientSchemaVersion := aMessageVersion;
              _clientName := Some aClientName;
              _deviceManager := _deviceManager srv;
              _pingTimedOut := _pingTimedOut srv;
              _receivedRequestServerInfo := true;
              _logger := _logger srv;
              _outgoingLogLevel := _outgoingLogLevel srv;
              _serverName := _serverName srv;
              _maxPingTime := _maxPingTime srv |},
           ServerInfo 0 0 0 1 (_maxPingTime srv) (_serverName srv) id)
    | Test aTestString testId => (srv, Test aTestString testId)
    | _ =>
        let (dm, r) := DeviceManager_SendMessage (_deviceManager srv) aMessage in
        ({| _clientSchemaVersion := _clientSchemaVersion srv;
            _clientName := _clientName srv;
            _deviceManager := dm;
            _pingTimedOut := _pingTimedOut srv;
            _receivedRequestServerInfo := _receivedRequestServerInfo srv;
            _logger := _logger srv;
            _outgoingLogLevel := _outgoingLogLevel srv;
            _serverName := _serverName srv;
            _maxPingTime := _maxPingTime srv |},
         r)
    end.

(** *** The outgoing channel *)

Context {MS : MessageSchema} {LG : LoggingApi}.

(** The [while] loop of [OnOutgoingMessage].  [fuel] bounds the number of
    iterations; [None] means the loop is still running when it is used up. *)
Fixpoint downgrade_loop (fuel : nat) (target : Z) (msg : ButtplugMessage)
  {struct fuel} : option ButtplugMessage :=
  if negb (Z.of_N (SchemaVersion msg) =? target)
     && (0 <? SchemaVersion msg)%N then
    match fuel with
    | O => None
    | S fuel' => downgrade_loop fuel' target (DowngradeMessage msg)
    end
  else Some msg.

(** What a call of [OnOutgoingMessage] does: the value it returns (dropped
    by the event emitter that calls it) and the messages it passes to
    [this.emit("message", _)], which reach every external listener. *)
Record Outcome : Type := mkOutcome {
  returned : option ButtplugMessage;
  emitted : list ButtplugMessage
}.

(** [(msg as Messages.Error).ErrorMessage], read once [msg.Type] is
    "Error". *)
Definition ErrorMessage_of (msg : ButtplugMessage) : string :=
  match msg with
  | Error aText _ _ => aText
  | _ => ""
  end.

(** [aMsg.LogLevel > this._outgoingLogLevel]; the comparison is false
    when the stored value is not a level. *)
Definition above_outgoing_level (srv : ButtplugServer) (aMsg : LogMessage)
  : bool :=
  match _outgoingLogLevel srv with
  | Some outgoing =>
      LogLevel_value outgoing <? LogLevel_value (LogMessage_LogLevel aMsg)
  | None => false
  end.

(** The body of [OnLogMessage], with the outgoing channel it publishes
    to as an argument; the result is what the call emits. *)
Definition OnLogMessage_to (publish : ButtplugMessage -> option Outcome)
    (srv : ButtplugServer) (aMsg : LogMessage)
  : option (list ButtplugMessage) :=
  if above_outgoing_level srv aMsg then Some []
  else
    option_map emitted
      (publish (Log (LogLevel_name (LogMessage_LogLevel aMsg))
                    (Message aMsg) DefaultLogId)).

(** The listener the constructor registers on [ServerMessageHub].  On a
    failed conversion [_logger.Error] runs before [emit]: when the relay
    is registered, the entry comes back through [OnLogMessage] into this
    function, and what that call emits precedes the Error.  [fuel] bounds
    the iterations of the loop and the depth of these calls; [None] means
    that the call has not returned when it is used up. *)
Fixpoint OnOutgoingMessage (fuel : nat) (srv : ButtplugServer)
    (msg : ButtplugMessage) {struct fuel} : option Outcome :=
  if (Type_ msg =? "Error")%string then
    Some (mkOutcome (Some msg) [])
  else if _clientSchemaVersion srv =? -1 then
    Some (mkOutcome
            (Some (Error
                     "Cannot discern client schema version. Was RequestServerInfo message sent?"
                     DefaultErrorClass DefaultErrorId))
            [])
  else
    match downgrade_loop fuel (_clientSchemaVersion srv) msg with
    | None => None
    | Some msg' =>
        if (Type_ msg' =? "Error")%string then
          let onLog :=
            match fuel with
            | O => fun _ => None
            | S fuel' => OnLogMessage_to (OnOutgoingMessage fuel' srv) srv
            end in
          match ButtplugLogger_Error (_logger srv) onLog
                  (ErrorMessage_of msg') with
          | None => None
          | Some logs => Some (mkOutcome None (logs ++ [msg'])%list)
          end
        else Some (mkOutcome None [msg'])
    end.

(** [OnLogMessage], the listener of the logger's "log" event. *)
Definition OnLogMessage_ (fuel : nat) (srv : ButtplugServer)
    (aMsg : LogMessage) : option (list ButtplugMessage) :=
  OnLogMessage_to (OnOutgoingMessage fuel srv) srv aMsg.

(** *** Sessions *)

(** A run of inbound messages, each awaited before the next is sent. *)
Fixpoint SendMessages (srv : ButtplugServer) (msgs : list ButtplugMessage)
  : ButtplugServer * list ButtplugMessage :=
  match msgs with
  | [] => (srv, [])
  | m :: rest =>
      let (srv1, r) := SendMessage srv m in
      let (srv2, rs) := SendMessages srv1 rest in
      (srv2, r :: rs)
  end.

(** [_pingTimedOut] is only read by the server; this is the write of the
    ping timer that owns it. *)
Definition PingTimeout (srv : ButtplugServer) : ButtplugServer :=
  {| _clientSchemaVersion := _clientSchemaVersion srv;
     _clientName := _clientName srv;
     _deviceManager := _deviceManager srv;
     _pingTimedOut := true;
     _receivedRequestServerInfo := _receivedRequestServerInfo srv;
     _logger := _logger srv;
     _outgoingLogLevel := _outgoingLogLevel srv;
     _serverName := _serverName srv;
     _maxPingTime := _maxPingTime srv |}.

(** Number of times this server's [OnLogMessage] is registered. *)
Definition subscriptions (srv : ButtplugServer) : nat :=
  List.length (filter (Listener_eqb OnLogMessage) (listeners (_logger srv))).

(** The session invariant of the relay: registered once when the
    outgoing level is not Off, and not at all when it is. *)
Definition relay_in_step (srv : ButtplugServer) : Prop :=
  subscriptions srv = if is_Off (_outgoingLogLevel srv) then O else 1%nat.

(** The states a server can be in: freshly constructed (its
    [OnLogMessage] is a new closure, so the logger cannot hold it yet),
    and whatever follows by inbound messages, added device managers and
    the ping timer. *)
Inductive reachable : ButtplugServer -> Prop :=
| reach_new : forall aServerName aMaxPingTime aLogger,
    existsb (Listener_eqb OnLogMessage) (listeners aLogger) = false ->
    reachable (new_ButtplugServer aServerName aMaxPingTime aLogger)
| reach_SendMessage : forall srv aMessage,
    reachable srv -> reachable (fst (SendMessage srv aMessage))
| reach_AddDeviceManager : forall srv aManager,
    reachable srv -> reachable (AddDeviceManager srv aManager)
| reach_PingTimeout : forall srv,
    reachable srv -> reachable (PingTimeout srv).

(** The classes that have a [case] of their own in the [switch] of
    [SendMessage]; every other class falls through to the device manager. *)
Definition handled_locally (aMessage : ButtplugMessage) : bool :=
  existsb (String.eqb (Type_ aMessage))
    ["RequestLog"; "Ping"; "RequestServerInfo"; "Test"].

(** The parts of the server and of the shared logger that no inbound
    message writes. *)
Definition same_surroundings (srv0 srv : ButtplugServer) : Prop :=
  _serverName srv = _serverName srv0
  /\ _maxPingTime srv = _maxPingTime srv0
  /\ _pingTimedOut srv = _pingTimedOut srv0
  /\ MaximumLogLevel (_logger srv) = MaximumLogLevel (_logger srv0)
  /\ ConsoleLogging (_logger srv) = ConsoleLogging (_logger srv0)
  /\ foreign_listeners (_logger srv) = foreign_listeners (_logger srv0).

(** *** The downgrade chain of a message *)

(** The message after [k] applications of [DowngradeMessage]. *)
Fixpoint downgrade_chain (k : nat) (msg : ButtplugMessage) : ButtplugMessage :=
  match k with
  | O => msg
  | S k' => downgrade_chain k' (DowngradeMessage msg)
  end.

(** Every versioned message of the chain downgrades to a strictly lower
    schema version. *)
Definition chain_strictly_decreases (msg : ButtplugMessage) : Prop :=
  forall k,
    (0 < SchemaVersion (downgrade_chain k msg))%N ->
    (SchemaVersion (DowngradeMessage (downgrade_chain k msg))
     < SchemaVersion (downgrade_chain k msg))%N.

End Server.

Arguments ButtplugServer DM : clear implicits.

(** ** Sample collaborators

    A device manager without subtype managers and a message schema with
    one revised class, used to run the server on concrete messages. *)

Module Sample.

(** Answers every device command with an error and counts the calls. *)
Definition devices : DeviceManagerApi :=
  {| DeviceManager := nat;
     IDeviceSubtypeManager := unit;
     DeviceManager_new := O;
     DeviceManager_AddDeviceManager := fun dm _ => dm;
     DeviceManager_SendMessage := fun dm m =>
       (S dm, Error "No handler" ERROR_MSG (Id m)) |}.

(** [VibrateCmd] is revision 1 and downgrades to [SingleMotorVibrateCmd];
    every other class has no revisions and no downgrade. *)
Definition schema : MessageSchema :=
  {| SchemaVersion := fun m =>
       match m with
       | Other name _ _ _ => if (name =? "VibrateCmd")%string then 1%N else 0%N
       | _ => 0%N
       end;
     DowngradeMessage := fun m =>
       match m with
       | Other name i body _ =>
           if (name =? "VibrateCmd")%string
           then Other "SingleMotorVibrateCmd" i body eq_refl
           else Error "No downgrade" ERROR_MSG i
       | _ => Error "No downgrade" ERROR_MSG (Id m)
       end;
     DefaultErrorClass := ERROR_OTHER 0;
     DefaultErrorId := 0 |}.

Definition logger : ButtplugLogger := mkLogger Off false [Foreign 7].

Definition server : ButtplugServer devices :=
  new_ButtplugServer default_server_name 0 logger.

Definition VibrateCmd (i : Z) : ButtplugMessage :=
  Other "VibrateCmd" i "{Speeds:[0.5]}" eq_refl.

(** The server after a handshake at revision [v]. *)
Definition connected (v : Z) : ButtplugServer devices :=
  fst (SendMessage server (RequestServerInfo "client" v 1)).

(** A schema whose messages are all at revision 2 and downgrade to
    themselves. *)
Definition stuck_schema : MessageSchema :=
  {| SchemaVersion := fun _ => 2%N;
     DowngradeMessage := fun m => m;
     DefaultErrorClass := ERROR_OTHER 0;
     DefaultErrorId := 0 |}.

Definition StopAllDevices (i : Z) : ButtplugMessage :=
  Other "StopAllDevices" i "{}" eq_refl.

(** The levels numbered from the least to the most verbose, a logger
    that emits the entries up to its maximal level, and id 0 for Log. *)
Definition logging : LoggingApi :=
  let value := fun level =>
    match level with
    | Off => 0
    | LError => 1
    | Warn => 2
    | Info => 3
    | Debug => 4
    | Trace => 5
    end in
  {| LogLevel_value := value;
     Logger_emits := fun lg level => value level <=? value (MaximumLogLevel lg);
     DefaultLogId := 0 |}.

(** [LinearCmd] is revision 1 and has no older form: its downgrade is an
    Error.  Every other class has no revisions. *)
Definition strict_schema : MessageSchema :=
  {| SchemaVersion := fun m =>
       match m with
       | Other name _ _ _ => if (name =? "LinearCmd")%string then 1%N else 0%N
       | _ => 0%N
       end;
     DowngradeMessage := fun m =>
       Error "No older form of this message" ERROR_MSG (Id m);
     DefaultErrorClass := ERROR_OTHER 0;
     DefaultErrorId := 0 |}.

Definition LinearCmd (i : Z) : ButtplugMessage :=
  Other "LinearCmd" i "{Vectors:[]}" eq_refl.

End Sample.

(** * Properties *)

(** ** The message tag *)

Lemma Type_RequestServerInfo (m : ButtplugMessage) :
  Type_ m = "RequestServerInfo" ->
  exists aClientName aMessageVersion i,
    m = RequestServerInfo aClientName aMessageVersion i.
Proof.
  destruct m as [ | | | | | | c v i | | name i body fresh];
    simpl; intros H; try discriminate H.
  - now exists c, v, i.
  - subst name. discriminate fresh.
Qed.

Lemma Type_Error (m : ButtplugMessage) :
  Type_ m = "Error" ->
  exists text cls i, m = Error text cls i.
Proof.
  destruct m as [ | text cls i | | | | | | | name i body fresh];
    simpl; intros H; try discriminate H.
  - now exists text, cls, i.
  - subst name. discriminate fresh.
Qed.

(** ** The session gate *)

Section Gate.

Context {DM : DeviceManagerApi}.

Implicit Types (srv : ButtplugServer DM) (aMessage : ButtplugMessage).

Lemma SendMessage_gate_id srv aMessage :
  Id aMessage = 0 ->
  SendMessage srv aMessage =
    (srv, Error
            "Message Id 0 is reserved for outgoing system messages. Please use another Id."
            ERROR_MSG 0).
Proof.
  intros H. unfold SendMessage, LogAndError. now rewrite H.
Qed.

Lemma SendMessage_gate_ping srv aMessage :
  Id aMessage <> 0 ->
  _pingTimedOut srv = true ->
  SendMessage srv aMessage =
    (srv, Error "Ping timed out." ERROR_MSG (Id aMessage)).
Proof.
  intros Hid Hp. unfold SendMessage, LogAndError.
  apply Z.eqb_neq in Hid. now rewrite Hid, Hp.
Qed.

Lemma SendMessage_gate_init srv aMessage :
  Id aMessage <> 0 ->
  _pingTimedOut srv = false ->
  _receivedRequestServerInfo srv = false ->
  Type_ aMessage <> "RequestServerInfo" ->
  SendMessage srv aMessage =
    (srv, Error "RequestServerInfo must be first message received by server."
                ERROR_INIT (Id aMessage)).
Proof.
  intros Hid Hp Hr Ht. unfold SendMessage, LogAndError.
  apply Z.eqb_neq in Hid. apply String.eqb_neq in Ht.
  now rewrite Hid, Hp, Hr, Ht.
Qed.

End Gate.

(** ** The dispatcher *)

Section Dispatch.

Context {DM : DeviceManagerApi}.

Implicit Types (srv : ButtplugServer DM) (aMessage : ButtplugMessage).

(** A handshake behind the gate: refused on the stored version, or
    recorded. *)
Lemma SendMessage_handshake srv aClientName aMessageVersion id :
  id <> 0 ->
  _pingTimedOut srv = false ->
  SendMessage srv (RequestServerInfo aClientName aMessageVersion id) =
    if 1 <? _clientSchemaVersion srv then
      (srv, Error ("Client schema (" ++ string_of_Z (_clientSchemaVersion srv)
                     ++ ") newer than server schema (1). "
                     ++ "Please upgrade server.")
                  ERROR_INIT id)
    else
      (mkServer aMessageVersion (Some aClientName)
                (_deviceManager srv) (_pingTimedOut srv) true (_logger srv)
                (_outgoingLogLevel srv) (_serverName srv) (_maxPingTime srv),
       ServerInfo 0 0 0 1 (_maxPingTime srv) (_serverName srv) id).
Proof.
  intros Hid Hp. unfold SendMessage. simpl Id. simpl Type_.
  apply Z.eqb_neq in Hid. rewrite Hid, Hp. simpl.
  now rewrite andb_false_r.
Qed.

(** Only a handshake writes the negotiated version and the client name,
    and it writes the values of the message. *)
Lemma SendMessage_version srv aMessage :
  (_clientSchemaVersion (fst (SendMessage srv aMessage))
     = _clientSchemaVersion srv
   /\ _clientName (fst (SendMessage srv aMessage)) = _clientName srv
   /\ _receivedRequestServerInfo (fst (SendMessage srv aMessage))
        = _receivedRequestServerInfo srv)
  \/ (exists aClientName aMessageVersion id,
        aMessage = RequestServerInfo aClientName aMessageVersion id
        /\ _clientSchemaVersion (fst (SendMessage srv aMessage))
             = aMessageVersion
        /\ _clientName (fst (SendMessage srv aMessage)) = Some aClientName
        /\ _receivedRequestServerInfo (fst (SendMessage srv aMessage)) = true
        /\ snd (SendMessage srv aMessage)
             = ServerInfo 0 0 0 1 (_maxPingTime srv) (_serverName srv) id).
Proof.
  unfold SendMessage, LogAndError.
  destruct (Id aMessage =? 0) eqn:Hid; [now left|].
  destruct (_pingTimedOut srv) eqn:Hp; [now left|].
  destruct (negb (_receivedRequestServerInfo srv)
            && negb (Type_ aMessage =? "RequestServerInfo")%string);
    [now left|].
  destruct (1 <? _clientSchemaVersion srv) eqn:Hv;
    destruct aMessage as [ | | | | | | c v i | | name i body fresh];
    simpl;
    try destruct (DeviceManager_SendMessage (_deviceManager srv) _);
    try (left; repeat split; reflexivity).
  right. exists c, v, i. simpl. auto.
Qed.

(** No inbound message touches the ping flag. *)
Lemma SendMessage_pingTimedOut srv aMessage :
  _pingTimedOut (fst (SendMessage srv aMessage)) = _pingTimedOut srv.
Proof.
  unfold SendMessage, LogAndError.
  destruct (Id aMessage =? 0); [reflexivity|].
  destruct (_pingTimedOut srv) eqn:Hp; [exact Hp|].
  destruct (negb (_receivedRequestServerInfo srv)
            && negb (Type_ aMessage =? "RequestServerInfo")%string);
    [exact Hp|].
  destruct (1 <? _clientSchemaVersion srv);
    destruct aMessage; simpl; auto;
    destruct (DeviceManager_SendMessage (_deviceManager srv) _); auto.
Qed.

End Dispatch.

(** ** Claims about inbound messages *)

Section Inbound.

Context {DM : DeviceManagerApi}.

Implicit Types (srv : ButtplugServer DM) (aMessage : ButtplugMessage).

(** C4.  An inbound message whose id is 0 is answered with an Error of
    class ERROR_MSG keyed to id 0, whatever its class, its fields and the
    state of the session, and the session is left as it was. *)
Theorem reserved_id_rejected srv aMessage :
  Id aMessage = 0 ->
  SendMessage srv aMessage =
    (srv, Error
            "Message Id 0 is reserved for outgoing system messages. Please use another Id."
            ERROR_MSG 0).
Proof.
  intros Hid. unfold SendMessage, LogAndError.
  rewrite Hid. reflexivity.
Qed.

(** C5, amended.  In a session whose ping has not timed out and whose
    handshake is not complete, an inbound message with a nonzero id that
    is not a RequestServerInfo is answered with an Error of class
    ERROR_INIT keyed to its id, and the server, hence every session
    field, is unchanged. *)
Theorem before_handshake_rejected srv aMessage :
  _pingTimedOut srv = false ->
  _receivedRequestServerInfo srv = false ->
  Id aMessage <> 0 ->
  Type_ aMessage <> "RequestServerInfo" ->
  SendMessage srv aMessage =
    (srv, Error "RequestServerInfo must be first message received by server."
                ERROR_INIT (Id aMessage)).
Proof.
  intros Hp Hr Hid Ht. now apply SendMessage_gate_init.
Qed.

(** C6.  Once the ping has timed out, an inbound message with a nonzero
    id, a RequestServerInfo included, is answered with an Error of class
    ERROR_MSG keyed to its id and changes nothing; so along every run of
    inbound messages the server stays exactly as it was, timed out, and
    every answer is such an Error. *)
Theorem ping_timed_out_inert srv :
  _pingTimedOut srv = true ->
  (forall aMessage,
     Id aMessage <> 0 ->
     SendMessage srv aMessage =
       (srv, Error "Ping timed out." ERROR_MSG (Id aMessage)))
  /\ (forall aClientName aMessageVersion id,
        id <> 0 ->
        SendMessage srv (RequestServerInfo aClientName aMessageVersion id) =
          (srv, Error "Ping timed out." ERROR_MSG id))
  /\ (forall msgs,
        fst (SendMessages srv msgs) = srv
        /\ Forall2 (fun m r => exists text, r = Error text ERROR_MSG (Id m))
             msgs (snd (SendMessages srv msgs))).
Proof.
  intros Hp. split; [|split].
  - intros m Hid. now apply SendMessage_gate_ping.
  - intros c v id Hid.
    now apply (SendMessage_gate_ping srv (RequestServerInfo c v id)).
  - induction msgs as [|m rest IH]; simpl.
    + split; [reflexivity | constructor].
    + assert (Hm : exists text,
                 SendMessage srv m = (srv, Error text ERROR_MSG (Id m))).
      { destruct (Z.eq_dec (Id m) 0) as [H0|Hn].
        - eexists. rewrite (SendMessage_gate_id srv m H0). now rewrite H0.
        - eexists. now apply SendMessage_gate_ping. }
      destruct Hm as [text Hm]. rewrite Hm.
      destruct (SendMessages srv rest) as [srv2 rs]. simpl in *.
      destruct IH as [IH1 IH2]. split; [exact IH1|].
      constructor; [now exists text | exact IH2].
Qed.

(** C10.  A RequestServerInfo that passes the gate of a session whose
    negotiated version is still -1 succeeds whatever version it asks for:
    the server records the version and the name of the message, marks the
    handshake as received and answers ServerInfo keyed to the inbound id.
    In any session the answer does not depend on the version asked for. *)
Theorem first_handshake_accepts_any_version
    srv aClientName aMessageVersion id :
  id <> 0 ->
  _pingTimedOut srv = false ->
  _clientSchemaVersion srv = -1 ->
  SendMessage srv (RequestServerInfo aClientName aMessageVersion id) =
    (mkServer aMessageVersion (Some aClientName)
              (_deviceManager srv) (_pingTimedOut srv) true (_logger srv)
              (_outgoingLogLevel srv) (_serverName srv) (_maxPingTime srv),
     ServerInfo 0 0 0 1 (_maxPingTime srv) (_serverName srv) id)
  /\ forall otherVersion,
       snd (SendMessage srv (RequestServerInfo aClientName otherVersion id))
       = snd (SendMessage srv
                (RequestServerInfo aClientName aMessageVersion id)).
Proof.
  intros Hid Hp Hv. split.
  - rewrite SendMessage_handshake by assumption. now rewrite Hv.
  - intros v'. rewrite !SendMessage_handshake by assumption.
    now destruct (1 <? _clientSchemaVersion srv).
Qed.

(** C3, amended.  The negotiated version of a new server is -1.  An
    inbound message that is not a RequestServerInfo changes neither the
    negotiated version nor the client name.  A RequestServerInfo either
    is refused with an Error and changes neither, or is answered with
    ServerInfo and sets both to the version and name it carries; this
    holds in every session state, after an earlier handshake as well. *)
Theorem version_written_by_handshakes_only srv aMessage :
  (forall aServerName aMaxPingTime aLogger,
     _clientSchemaVersion
       (new_ButtplugServer (DM:=DM) aServerName aMaxPingTime aLogger) = -1)
  /\ (Type_ aMessage <> "RequestServerInfo" ->
      _clientSchemaVersion (fst (SendMessage srv aMessage))
        = _clientSchemaVersion srv
      /\ _clientName (fst (SendMessage srv aMessage)) = _clientName srv)
  /\ (forall aClientName aMessageVersion id,
        aMessage = RequestServerInfo aClientName aMessageVersion id ->
        ((exists text cls,
            snd (SendMessage srv aMessage) = Error text cls id)
         /\ _clientSchemaVersion (fst (SendMessage srv aMessage))
              = _clientSchemaVersion srv
         /\ _clientName (fst (SendMessage srv aMessage)) = _clientName srv)
        \/ (snd (SendMessage srv aMessage)
              = ServerInfo 0 0 0 1 (_maxPingTime srv) (_serverName srv) id
            /\ _clientSchemaVersion (fst (SendMessage srv aMessage))
                 = aMessageVersion
            /\ _clientName (fst (SendMessage srv aMessage))
                 = Some aClientName)).
Proof.
  split; [reflexivity|]. split.
  - intros Ht.
    destruct (SendMessage_version srv aMessage)
      as [(Hv & Hn & _) | (c & v & i & Hm & _)]; [now split|].
    subst aMessage. now elim Ht.
  - intros c v id ->.
    unfold SendMessage, LogAndError. simpl Id. simpl Type_.
    destruct (id =? 0) eqn:Hid.
    { left. apply Z.eqb_eq in Hid. subst id. simpl. eauto. }
    destruct (_pingTimedOut srv); [left; simpl; eauto|].
    rewrite String.eqb_refl, andb_false_r.
    destruct (1 <? _clientSchemaVersion srv); [left; simpl; eauto|].
    right. simpl. auto.
Qed.

End Inbound.

(** ** The outgoing channel *)

Section Outgoing.

Context {DM : DeviceManagerApi} {MS : MessageSchema}.

Implicit Types (srv : ButtplugServer DM) (msg : ButtplugMessage).

(** The loop test, read as a proposition. *)
Lemma loop_test_false target msg :
  negb (Z.of_N (SchemaVersion msg) =? target)
  && (0 <? SchemaVersion msg)%N = false ->
  Z.of_N (SchemaVersion msg) = target \/ SchemaVersion msg = 0%N.
Proof.
  intros H. apply andb_false_iff in H. destruct H as [H|H].
  - left. apply negb_false_iff in H. now apply Z.eqb_eq.
  - right. apply N.ltb_ge in H. lia.
Qed.

Lemma loop_test_true target msg :
  negb (Z.of_N (SchemaVersion msg) =? target)
  && (0 <? SchemaVersion msg)%N = true ->
  (0 < SchemaVersion msg)%N.
Proof.
  intros H. apply andb_true_iff in H. destruct H as [_ H].
  now apply N.ltb_lt.
Qed.

(** Whenever the loop ends, it ends on its exit condition. *)
Lemma downgrade_loop_exit fuel : forall target msg r,
  downgrade_loop fuel target msg = Some r ->
  Z.of_N (SchemaVersion r) = target \/ SchemaVersion r = 0%N.
Proof.
  induction fuel as [|fuel IH]; intros target msg r; simpl;
    destruct (negb (Z.of_N (SchemaVersion msg) =? target)
              && (0 <? SchemaVersion msg)%N) eqn:Ht;
    intros H; try discriminate H.
  - injection H as <-. now apply loop_test_false.
  - now apply IH in H.
  - injection H as <-. now apply loop_test_false.
Qed.

Lemma chain_strictly_decreases_step msg :
  chain_strictly_decreases msg ->
  chain_strictly_decreases (DowngradeMessage msg).
Proof.
  intros H k. exact (H (S k)).
Qed.

(** The loop on a decreasing chain, by induction on a bound of the
    schema version it starts from. *)
Lemma downgrade_loop_total target (bound : nat) : forall msg,
  (N.to_nat (SchemaVersion msg) <= bound)%nat ->
  chain_strictly_decreases msg ->
  exists steps,
    (steps <= bound)%nat
    /\ forall fuel, (steps <= fuel)%nat ->
         downgrade_loop fuel target msg = Some (downgrade_chain steps msg).
Proof.
  induction bound as [|bound IH]; intros msg Hb Hc.
  - exists O. split; [lia|]. intros fuel _.
    assert (Ht : negb (Z.of_N (SchemaVersion msg) =? target)
                 && (0 <? SchemaVersion msg)%N = false).
    { apply andb_false_iff. right. apply N.ltb_ge. lia. }
    destruct fuel; simpl; now rewrite Ht.
  - destruct (negb (Z.of_N (SchemaVersion msg) =? target)
              && (0 <? SchemaVersion msg)%N) eqn:Ht.
    + pose proof (loop_test_true _ _ Ht) as Hpos.
      pose proof (Hc O Hpos) as Hlt. simpl in Hlt.
      destruct (IH (DowngradeMessage msg)) as (steps & Hs & Hrun).
      { lia. }
      { now apply chain_strictly_decreases_step. }
      exists (S steps). split; [lia|]. intros fuel Hf.
      destruct fuel as [|fuel]; [lia|]. simpl. rewrite Ht.
      apply Hrun. lia.
    + exists O. split; [lia|]. intros fuel _.
      destruct fuel; simpl; now rewrite Ht.
Qed.

(** C7.  On a message whose downgrade chain strictly decreases the
    schema version, the downgrade loop terminates: after a number of
    iterations bounded by the schema version it starts from, it returns a
    message of the chain, and the schema version of that message is the
    target version or 0. *)
Theorem downgrade_loop_terminates target msg :
  chain_strictly_decreases msg ->
  exists steps r,
    (steps <= N.to_nat (SchemaVersion msg))%nat
    /\ r = downgrade_chain steps msg
    /\ (forall fuel, (steps <= fuel)%nat ->
          downgrade_loop fuel target msg = Some r)
    /\ (Z.of_N (SchemaVersion r) = target \/ SchemaVersion r = 0%N).
Proof.
  intros Hc.
  destruct (downgrade_loop_total target (N.to_nat (SchemaVersion msg)) msg)
    as (steps & Hs & Hrun); [lia | exact Hc |].
  exists steps, (downgrade_chain steps msg).
  repeat split; [exact Hs | exact Hrun |].
  apply (downgrade_loop_exit steps target msg). apply Hrun. lia.
Qed.

End Outgoing.

(** ** The log listener *)

Section Listeners.

Variable l : Listener.

Lemma existsb_false_filter (ls : list Listener) :
  existsb (Listener_eqb l) ls = false <->
  List.length (filter (Listener_eqb l) ls) = O.
Proof.
  induction ls as [|x rest IH]; simpl; [tauto|].
  destruct (Listener_eqb l x); simpl; [split; discriminate | exact IH].
Qed.

Lemma removeListener_absent (ls : list Listener) :
  existsb (Listener_eqb l) ls = false -> removeListener l ls = ls.
Proof.
  induction ls as [|x rest IH]; simpl; [reflexivity|].
  destruct (Listener_eqb l x); simpl; [discriminate|].
  intros H. now rewrite H.
Qed.

Lemma removeListener_count (ls : list Listener) :
  List.length (filter (Listener_eqb l) (removeListener l ls)) =
  Nat.pred (List.length (filter (Listener_eqb l) ls)).
Proof.
  induction ls as [|x rest IH]; simpl; [reflexivity|].
  destruct (existsb (Listener_eqb l) rest) eqn:He.
  - assert (Hpos : List.length (filter (Listener_eqb l) rest) <> O).
    { intros H0. apply existsb_false_filter in H0. congruence. }
    simpl. destruct (Listener_eqb l x); simpl; [lia | exact IH].
  - apply existsb_false_filter in He.
    destruct (Listener_eqb l x) eqn:Hx; simpl; [lia|].
    rewrite Hx. lia.
Qed.

Lemma addListener_count (ls : list Listener) :
  Listener_eqb l l = true ->
  List.length (filter (Listener_eqb l) (addListener l ls)) =
  S (List.length (filter (Listener_eqb l) ls)).
Proof.
  intros Hl. unfold addListener. rewrite filter_app, length_app.
  simpl. rewrite Hl. simpl. lia.
Qed.

End Listeners.

Lemma is_Off_of_name (name : string) :
  is_Off (LogLevel_of_name name) = (name =? "Off")%string.
Proof.
  unfold LogLevel_of_name.
  destruct (name =? "Off")%string; [reflexivity|].
  repeat match goal with
         | |- context [if ?b then _ else _] => destruct b; try reflexivity
         end.
Qed.

Section LogControl.

Context {DM : DeviceManagerApi}.

Implicit Types (srv : ButtplugServer DM) (aMessage : ButtplugMessage).

Lemma SendMessage_RequestLog srv aLogLevel id :
  id <> 0 ->
  _pingTimedOut srv = false ->
  _receivedRequestServerInfo srv = true ->
  SendMessage srv (RequestLog aLogLevel id) =
    (mkServer (_clientSchemaVersion srv) (_clientName srv)
              (_deviceManager srv) (_pingTimedOut srv)
              (_receivedRequestServerInfo srv)
              (toggle_log_listener srv aLogLevel)
              (LogLevel_of_name aLogLevel)
              (_serverName srv) (_maxPingTime srv),
     Ok id).
Proof.
  intros Hid Hp Hr. unfold SendMessage. simpl Id.
  apply Z.eqb_neq in Hid. rewrite Hid, Hp, Hr. reflexivity.
Qed.

(** Only a RequestLog touches the logger and the outgoing level. *)
Lemma SendMessage_logger srv aMessage :
  (_logger (fst (SendMessage srv aMessage)) = _logger srv
   /\ _outgoingLogLevel (fst (SendMessage srv aMessage))
        = _outgoingLogLevel srv)
  \/ (exists aLogLevel id,
        aMessage = RequestLog aLogLevel id
        /\ _logger (fst (SendMessage srv aMessage))
             = toggle_log_listener srv aLogLevel
        /\ _outgoingLogLevel (fst (SendMessage srv aMessage))
             = LogLevel_of_name aLogLevel).
Proof.
  unfold SendMessage, LogAndError.
  destruct (Id aMessage =? 0); [now left|].
  destruct (_pingTimedOut srv); [now left|].
  destruct (negb (_receivedRequestServerInfo srv)
            && negb (Type_ aMessage =? "RequestServerInfo")%string);
    [now left|].
  destruct (1 <? _clientSchemaVersion srv);
    destruct aMessage as [ | | | | lvl i | | | | ];
    simpl;
    try destruct (DeviceManager_SendMessage (_deviceManager srv) _);
    try (left; split; reflexivity);
    right; exists lvl, i; auto.
Qed.

Lemma toggle_subscriptions srv aLogLevel :
  relay_in_step srv ->
  List.length (filter (Listener_eqb OnLogMessage)
                 (listeners (toggle_log_listener srv aLogLevel)))
  = if (aLogLevel =? "Off")%string then O else 1%nat.
Proof.
  unfold relay_in_step, subscriptions, toggle_log_listener. intros Hinv.
  destruct (aLogLevel =? "Off")%string; simpl.
  - rewrite removeListener_count, Hinv.
    now destruct (is_Off (_outgoingLogLevel srv)).
  - destruct (is_Off (_outgoingLogLevel srv)); simpl.
    + rewrite addListener_count by reflexivity. now rewrite Hinv.
    + exact Hinv.
Qed.

Lemma SendMessage_relay_in_step srv aMessage :
  relay_in_step srv -> relay_in_step (fst (SendMessage srv aMessage)).
Proof.
  intros Hinv.
  destruct (SendMessage_logger srv aMessage)
    as [[Hl Ho] | (lvl & i & _ & Hl & Ho)];
    unfold relay_in_step, subscriptions; rewrite Hl, Ho.
  - exact Hinv.
  - rewrite is_Off_of_name. now apply toggle_subscriptions.
Qed.

Lemma reachable_relay_in_step srv :
  reachable srv -> relay_in_step srv.
Proof.
  induction 1 as [name ping lg Hlg | srv m _ IH | srv mgr _ IH | srv _ IH].
  - unfold relay_in_step, subscriptions. simpl.
    now apply existsb_false_filter.
  - now apply SendMessage_relay_in_step.
  - exact IH.
  - exact IH.
Qed.

(** The lookup of a level by its name, name by name; Off has no other
    name. *)
Lemma LogLevel_of_name_table (name : string) :
  (name = "Off" -> LogLevel_of_name name = Some Off)
  /\ (name = "Trace" -> LogLevel_of_name name = Some Trace)
  /\ (name = "Debug" -> LogLevel_of_name name = Some Debug)
  /\ (name = "Info" -> LogLevel_of_name name = Some Info)
  /\ (name = "Warn" -> LogLevel_of_name name = Some Warn)
  /\ (name = "Error" -> LogLevel_of_name name = Some LError)
  /\ (LogLevel_of_name name = Some Off -> name = "Off").
Proof.
  repeat split; try (intros ->; reflexivity).
  intros Hoff. pose proof (is_Off_of_name name) as H.
  rewrite Hoff in H. simpl in H. symmetry in H.
  now apply String.eqb_eq in H.
Qed.

(** C9.  In a session that accepts it, a RequestLog is answered with Ok
    keyed to the inbound id and sets the outgoing level to the level it
    names: Off for "Off", Trace for "Trace", Debug for "Debug", Info for
    "Info", Warn for "Warn", Error for "Error", and Off for no other
    name.  The relay is registered once before it exactly when the level
    was not Off, and once after it exactly when the requested level is
    not Off: a request for Off after a level that was not Off removes the
    one registration, a request for another level adds one only when the
    level was Off, and sending the same request again changes nothing. *)
Theorem log_control_toggles_once srv aLogLevel id :
  reachable srv ->
  id <> 0 ->
  _pingTimedOut srv = false ->
  _receivedRequestServerInfo srv = true ->
  let after := fst (SendMessage srv (RequestLog aLogLevel id)) in
  snd (SendMessage srv (RequestLog aLogLevel id)) = Ok id
  /\ ((aLogLevel = "Off" -> _outgoingLogLevel after = Some Off)
      /\ (aLogLevel = "Trace" -> _outgoingLogLevel after = Some Trace)
      /\ (aLogLevel = "Debug" -> _outgoingLogLevel after = Some Debug)
      /\ (aLogLevel = "Info" -> _outgoingLogLevel after = Some Info)
      /\ (aLogLevel = "Warn" -> _outgoingLogLevel after = Some Warn)
      /\ (aLogLevel = "Error" -> _outgoingLogLevel after = Some LError)
      /\ (_outgoingLogLevel after = Some Off -> aLogLevel = "Off"))
  /\ subscriptions srv
       = (if is_Off (_outgoingLogLevel srv) then O else 1%nat)
  /\ subscriptions after
       = (if (aLogLevel =? "Off")%string then O else 1%nat)
  /\ (aLogLevel <> "Off" -> is_Off (_outgoingLogLevel srv) = false ->
      _logger after = _logger srv)
  /\ SendMessage after (RequestLog aLogLevel id) = (after, Ok id).
Proof.
  intros Hreach Hid Hp Hr after.
  pose proof (reachable_relay_in_step srv Hreach) as Hinv.
  subst after. rewrite (SendMessage_RequestLog srv aLogLevel id Hid Hp Hr) in *.
  simpl fst in *. simpl snd.
  split; [reflexivity|].
  split; [simpl; apply LogLevel_of_name_table|].
  split; [exact Hinv|].
  split.
  { unfold subscriptions. simpl. now apply toggle_subscriptions. }
  split.
  { intros Hn Hoff. simpl. unfold toggle_log_listener.
    apply String.eqb_neq in Hn. now rewrite Hn, Hoff. }
  rewrite SendMessage_RequestLog; simpl; try assumption.
  f_equal. f_equal.
  unfold toggle_log_listener at 1. simpl.
  rewrite is_Off_of_name.
  destruct (aLogLevel =? "Off")%string eqn:Hl; [|now destruct (toggle_log_listener srv aLogLevel)].
  assert (H0 : existsb (Listener_eqb OnLogMessage)
                 (listeners (toggle_log_listener srv aLogLevel)) = false).
  { apply existsb_false_filter.
    rewrite (toggle_subscriptions srv aLogLevel Hinv). now rewrite Hl. }
  rewrite (removeListener_absent _ _ H0).
  now destruct (toggle_log_listener srv aLogLevel).
Qed.

End LogControl.

(** ** Claims about outgoing messages *)

Section Published.

Context {DM : DeviceManagerApi} {MS : MessageSchema} {LG : LoggingApi}.

Implicit Types (srv : ButtplugServer DM) (msg : ButtplugMessage).

(** The body of [OnOutgoingMessage], for every [fuel]. *)
Lemma OnOutgoingMessage_eq fuel srv msg :
  OnOutgoingMessage fuel srv msg =
    if (Type_ msg =? "Error")%string then
      Some (mkOutcome (Some msg) [])
    else if _clientSchemaVersion srv =? -1 then
      Some (mkOutcome
              (Some (Error
                       "Cannot discern client schema version. Was RequestServerInfo message sent?"
                       DefaultErrorClass DefaultErrorId))
              [])
    else
      match downgrade_loop fuel (_clientSchemaVersion srv) msg with
      | None => None
      | Some msg' =>
          if (Type_ msg' =? "Error")%string then
            match ButtplugLogger_Error (_logger srv)
                    (match fuel with
                     | O => fun _ => None
                     | S fuel' => OnLogMessage_ fuel' srv
                     end)
                    (ErrorMessage_of msg') with
            | None => None
            | Some logs => Some (mkOutcome None (logs ++ [msg'])%list)
            end
          else Some (mkOutcome None [msg'])
      end.
Proof.
  destruct fuel; reflexivity.
Qed.

(** What one "log" event emits was emitted by one call of the relay. *)
Lemma relay_each_In (ls : list Listener) relayed logs e :
  relay_each ls relayed = Some logs ->
  In e logs ->
  exists one, relayed = Some one /\ In e one.
Proof.
  revert logs. induction ls as [|[|n] rest IH]; simpl; intros logs H He.
  - injection H as <-. destruct He.
  - destruct relayed as [one|]; [|discriminate H].
    destruct (relay_each rest (Some one)) as [others|]; [|discriminate H].
    injection H as <-. apply in_app_or in He. destruct He as [He|He].
    + now exists one.
    + now apply (IH others).
  - now apply (IH logs).
Qed.

(** Every message a call emits left a downgrade loop at its exit. *)
Lemma OnOutgoingMessage_emitted_exit fuel srv : forall msg out e,
  OnOutgoingMessage fuel srv msg = Some out ->
  In e (emitted out) ->
  Z.of_N (SchemaVersion e) = _clientSchemaVersion srv
  \/ SchemaVersion e = 0%N.
Proof.
  induction fuel as [|fuel IH]; intros msg out e Hout He;
    rewrite OnOutgoingMessage_eq in Hout;
    destruct (Type_ msg =? "Error")%string;
    try (injection Hout as <-; destruct He);
    destruct (_clientSchemaVersion srv =? -1);
    try (injection Hout as <-; destruct He);
    destruct (downgrade_loop _ (_clientSchemaVersion srv) msg)
      as [msg'|] eqn:Hloop; try discriminate Hout;
    pose proof (downgrade_loop_exit _ _ _ _ Hloop) as Hexit;
    destruct (Type_ msg' =? "Error")%string;
    try (injection Hout as <-; simpl in He; destruct He as [<-|[]];
         exact Hexit);
    destruct (ButtplugLogger_Error _ _ _) as [logs|] eqn:Hlog;
    try discriminate Hout;
    injection Hout as <-; simpl in He;
    apply in_app_or in He; destruct He as [He|[<-|[]]]; try exact Hexit;
    unfold ButtplugLogger_Error in Hlog;
    destruct (Logger_emits (_logger srv) LError);
    try (injection Hlog as <-; destruct He);
    destruct (relay_each_In _ _ _ _ Hlog He) as (one & Hone & Hin);
    try discriminate Hone.
  unfold OnLogMessage_, OnLogMessage_to in Hone.
  destruct (above_outgoing_level srv _).
  { injection Hone as <-. destruct Hin. }
  destruct (OnOutgoingMessage fuel srv _) as [inner|] eqn:Hinner;
    [|discriminate Hone].
  injection Hone as <-. exact (IH _ _ _ Hinner Hin).
Qed.

(** C2.  What the server does with a published message whose tag is
    Error: it returns the message as it is, without running the downgrade
    loop on it and without wrapping it, and it emits nothing, so no
    external listener receives the message. *)
Theorem published_error_not_emitted fuel srv msg :
  Type_ msg = "Error" ->
  OnOutgoingMessage fuel srv msg = Some (mkOutcome (Some msg) [])
  /\ forall out,
       OnOutgoingMessage fuel srv msg = Some out -> ~ In msg (emitted out).
Proof.
  intros Ht.
  assert (H : OnOutgoingMessage fuel srv msg = Some (mkOutcome (Some msg) [])).
  { rewrite OnOutgoingMessage_eq. apply String.eqb_eq in Ht. now rewrite Ht. }
  split; [exact H|].
  intros out Hout. rewrite H in Hout. injection Hout as <-.
  simpl. tauto.
Qed.

(** C8, amended.  In every state of the server, every message that the
    outgoing channel emits to the external listeners, be it the
    published message after its downgrades, an Error produced by a
    downgrade or a log entry relayed on the way, has a schema version
    equal to the stored client version or to 0; when the stored client
    version is 0 or more, it is never above it.  Once a version is
    stored, a published message that is not an Error and whose downgrade
    chain decreases leaves the loop, and when it leaves it as a message
    that is not an Error it is emitted, alone. *)
Theorem emitted_at_client_version srv :
  (forall fuel msg out e,
     OnOutgoingMessage fuel srv msg = Some out ->
     In e (emitted out) ->
     (Z.of_N (SchemaVersion e) = _clientSchemaVersion srv
      \/ SchemaVersion e = 0%N)
     /\ (0 <= _clientSchemaVersion srv ->
         Z.of_N (SchemaVersion e) <= _clientSchemaVersion srv))
  /\ (forall msg,
        Type_ msg <> "Error" ->
        _clientSchemaVersion srv <> -1 ->
        chain_strictly_decreases msg ->
        exists steps,
          (steps <= N.to_nat (SchemaVersion msg))%nat
          /\ forall fuel,
               (steps <= fuel)%nat ->
               downgrade_loop fuel (_clientSchemaVersion srv) msg
                 = Some (downgrade_chain steps msg)
               /\ (Type_ (downgrade_chain steps msg) <> "Error" ->
                   OnOutgoingMessage fuel srv msg
                   = Some (mkOutcome None [downgrade_chain steps msg]))).
Proof.
  split.
  - intros fuel msg out e Hout He.
    pose proof (OnOutgoingMessage_emitted_exit _ _ _ _ _ Hout He) as Hexit.
    split; [exact Hexit|]. intros Hpos. destruct Hexit as [Heq|H0]; lia.
  - intros msg Ht Hset Hc.
    destruct (downgrade_loop_total (_clientSchemaVersion srv)
                (N.to_nat (SchemaVersion msg)) msg)
      as (steps & Hs & Hrun); [lia | exact Hc |].
    exists steps. split; [exact Hs|]. intros fuel Hf.
    split; [now apply Hrun|]. intros Hr.
    rewrite OnOutgoingMessage_eq.
    apply String.eqb_neq in Ht. apply String.eqb_neq in Hr.
    apply Z.eqb_neq in Hset.
    now rewrite Ht, Hset, (Hrun fuel Hf), Hr.
Qed.

End Published.

(** ** Concrete sessions *)

Lemma sample_downgrade_unversioned (m : ButtplugMessage) :
  SchemaVersion (MessageSchema := Sample.schema)
    (DowngradeMessage (MessageSchema := Sample.schema) m) = 0%N.
Proof.
  destruct m as [ | | | | | | | | name i body fresh]; try reflexivity.
  simpl. now destruct (name =? "VibrateCmd")%string.
Qed.

Lemma sample_chain_decreases (m : ButtplugMessage) :
  chain_strictly_decreases (MS := Sample.schema) m.
Proof.
  intros k Hpos. now rewrite sample_downgrade_unversioned.
Qed.

Lemma sample_connected_reachable (v : Z) : reachable (Sample.connected v).
Proof.
  unfold Sample.connected. apply reach_SendMessage.
  apply reach_new. reflexivity.
Qed.

(** C1.  A new server receives a handshake that asks for version 3, two
    above the one version the server speaks.  The server answers
    ServerInfo, marks the handshake as received and records version 3; the
    Ping that follows is answered Ok; and it is the next handshake, asking
    for version 1, that is refused with the stored version in the text. *)
Theorem handshake_newer_client_accepted :
  let request := RequestServerInfo "client" 3 1 in
  let after := fst (SendMessage Sample.server request) in
  snd (SendMessage Sample.server request)
    = ServerInfo 0 0 0 1 0 "Buttplug JS Internal Server" 1
  /\ _receivedRequestServerInfo after = true
  /\ _clientSchemaVersion after = 3
  /\ snd (SendMessage after (Ping 2)) = Ok 2
  /\ snd (SendMessage after (RequestServerInfo "client" 1 3))
       = Error
           "Client schema (3) newer than server schema (1). Please upgrade server."
           ERROR_INIT 3.
Proof.
  cbv zeta. repeat split; vm_compute; reflexivity.
Qed.

(** C3 as stated fails: after a first handshake at version 1 by "first",
    a second handshake at version 0 by "second" is answered ServerInfo
    and replaces both the negotiated version and the client name. *)
Lemma second_handshake_overwrites :
  let first := fst (SendMessage Sample.server
                      (RequestServerInfo "first" 1 1)) in
  let second := fst (SendMessage first (RequestServerInfo "second" 0 2)) in
  (_receivedRequestServerInfo first = true
   /\ _clientSchemaVersion first = 1
   /\ _clientName first = Some "first")
  /\ snd (SendMessage first (RequestServerInfo "second" 0 2))
       = ServerInfo 0 0 0 1 0 "Buttplug JS Internal Server" 2
  /\ (_clientSchemaVersion second = 0
      /\ _clientName second = Some "second")
  /\ _clientSchemaVersion second <> _clientSchemaVersion first
  /\ _clientName second <> _clientName first.
Proof.
  cbv zeta. repeat split; try (vm_compute; reflexivity);
    vm_compute; discriminate.
Qed.

(** C5 as stated fails: on a server whose ping timed out before any
    handshake, a Ping with id 2 is answered with an Error of class
    ERROR_MSG, not ERROR_INIT. *)
Lemma timed_out_before_handshake :
  let srv := PingTimeout Sample.server in
  (_receivedRequestServerInfo srv = false
   /\ Id (Ping 2) <> 0
   /\ Type_ (Ping 2) <> "RequestServerInfo")
  /\ SendMessage srv (Ping 2) = (srv, Error "Ping timed out." ERROR_MSG 2)
  /\ (forall text, snd (SendMessage srv (Ping 2)) <> Error text ERROR_INIT 2).
Proof.
  cbv zeta. repeat split; try discriminate; reflexivity.
Qed.

Lemma reserved_id_rejected_witness :
  Id (RequestServerInfo "client" 1 0) = 0
  /\ SendMessage Sample.server (RequestServerInfo "client" 1 0) =
       (Sample.server,
        Error
          "Message Id 0 is reserved for outgoing system messages. Please use another Id."
          ERROR_MSG 0).
Proof.
  split; [reflexivity|].
  apply (reserved_id_rejected Sample.server (RequestServerInfo "client" 1 0)).
  reflexivity.
Defined.

Lemma before_handshake_rejected_witness :
  (_pingTimedOut Sample.server = false
   /\ _receivedRequestServerInfo Sample.server = false
   /\ Id (Test "x" 5) <> 0
   /\ Type_ (Test "x" 5) <> "RequestServerInfo")
  /\ SendMessage Sample.server (Test "x" 5) =
       (Sample.server,
        Error "RequestServerInfo must be first message received by server."
              ERROR_INIT 5).
Proof.
  split; [repeat split; try reflexivity; discriminate|].
  apply (before_handshake_rejected Sample.server (Test "x" 5));
    try reflexivity; discriminate.
Defined.

Lemma ping_timed_out_inert_witness :
  let srv := PingTimeout (Sample.connected 1) in
  let msgs := [Ping 2; RequestServerInfo "client" 1 3; Test "x" 0] in
  _pingTimedOut srv = true
  /\ SendMessage srv (RequestServerInfo "client" 1 3)
       = (srv, Error "Ping timed out." ERROR_MSG 3)
  /\ fst (SendMessages srv msgs) = srv
  /\ Forall2 (fun m r => exists text, r = Error text ERROR_MSG (Id m))
       msgs (snd (SendMessages srv msgs)).
Proof.
  cbv zeta. split; [reflexivity|].
  destruct (ping_timed_out_inert (PingTimeout (Sample.connected 1)) eq_refl)
    as (_ & Hhandshake & Hrun).
  split; [apply Hhandshake; discriminate | apply Hrun].
Defined.

Lemma first_handshake_accepts_any_version_witness :
  (1 <> 0
   /\ _pingTimedOut Sample.server = false
   /\ _clientSchemaVersion Sample.server = -1)
  /\ SendMessage Sample.server (RequestServerInfo "client" 7 1) =
       (mkServer (DM := Sample.devices) 7 (Some "client") O false true
                 (mkLogger Debug true [Foreign 7]) (Some Off)
                 "Buttplug JS Internal Server" 0%N,
        ServerInfo 0 0 0 1 0 "Buttplug JS Internal Server" 1).
Proof.
  split; [repeat split; try reflexivity; discriminate|].
  apply (first_handshake_accepts_any_version Sample.server "client" 7 1);
    try reflexivity; discriminate.
Defined.

Lemma log_control_toggles_once_witness :
  let srv := Sample.connected 1 in
  let after := fst (SendMessage srv (RequestLog "Debug" 2)) in
  (reachable srv
   /\ 2 <> 0
   /\ _pingTimedOut srv = false
   /\ _receivedRequestServerInfo srv = true)
  /\ snd (SendMessage srv (RequestLog "Debug" 2)) = Ok 2
  /\ _outgoingLogLevel after = Some Debug
  /\ subscriptions srv = O
  /\ subscriptions after = 1%nat
  /\ SendMessage after (RequestLog "Debug" 2) = (after, Ok 2).
Proof.
  cbv zeta.
  pose proof (sample_connected_reachable 1) as Hreach.
  split; [repeat split; try reflexivity; [exact Hreach | discriminate]|].
  destruct (log_control_toggles_once (Sample.connected 1) "Debug" 2 Hreach)
    as (Hok & (_ & _ & Hdebug & _) & Hbefore & Hafter & _ & Hagain);
    try reflexivity; try discriminate.
  split; [exact Hok|]. split; [now apply Hdebug|].
  split; [exact Hbefore|]. split; [exact Hafter | exact Hagain].
Defined.

Lemma downgrade_loop_terminates_witness :
  chain_strictly_decreases (MS := Sample.schema) (Sample.VibrateCmd 9)
  /\ exists steps r,
       (steps <= 1)%nat
       /\ r = downgrade_chain (MS := Sample.schema) steps (Sample.VibrateCmd 9)
       /\ (forall fuel, (steps <= fuel)%nat ->
             downgrade_loop (MS := Sample.schema) fuel 0 (Sample.VibrateCmd 9)
             = Some r)
       /\ (Z.of_N (SchemaVersion (MessageSchema := Sample.schema) r) = 0
           \/ SchemaVersion (MessageSchema := Sample.schema) r = 0%N).
Proof.
  split; [apply sample_chain_decreases|].
  apply (downgrade_loop_terminates (MS := Sample.schema) 0
           (Sample.VibrateCmd 9)).
  apply sample_chain_decreases.
Defined.

Lemma published_error_not_emitted_witness :
  Type_ (Error "Device lost" ERROR_MSG 0) = "Error"
  /\ OnOutgoingMessage (MS := Sample.schema) (LG := Sample.logging) 3
       (Sample.connected 1) (Error "Device lost" ERROR_MSG 0)
     = Some (mkOutcome (Some (Error "Device lost" ERROR_MSG 0)) []).
Proof.
  split; [reflexivity|].
  apply (published_error_not_emitted (MS := Sample.schema)
           (LG := Sample.logging) 3
           (Sample.connected 1) (Error "Device lost" ERROR_MSG 0)).
  reflexivity.
Defined.

Lemma emitted_at_client_version_witness :
  OnOutgoingMessage (MS := Sample.schema) (LG := Sample.logging) 1
    (Sample.connected 0) (Sample.VibrateCmd 0)
  = Some (mkOutcome None
            [Other "SingleMotorVibrateCmd" 0 "{Speeds:[0.5]}" eq_refl])
  /\ forall e,
       In e [Other "SingleMotorVibrateCmd" 0 "{Speeds:[0.5]}" eq_refl] ->
       (Z.of_N (SchemaVersion (MessageSchema := Sample.schema) e)
          = _clientSchemaVersion (Sample.connected 0)
        \/ SchemaVersion (MessageSchema := Sample.schema) e = 0%N)
       /\ (0 <= _clientSchemaVersion (Sample.connected 0) ->
           Z.of_N (SchemaVersion (MessageSchema := Sample.schema) e)
           <= _clientSchemaVersion (Sample.connected 0)).
Proof.
  split; [reflexivity|].
  intros e He.
  apply (proj1 (emitted_at_client_version (MS := Sample.schema)
                  (LG := Sample.logging) (Sample.connected 0))
           1%nat (Sample.VibrateCmd 0)
           (mkOutcome None
              [Other "SingleMotorVibrateCmd" 0 "{Speeds:[0.5]}" eq_refl]) e).
  - reflexivity.
  - exact He.
Defined.

(** C8 as stated fails: a client that declares version -2 is accepted,
    and a published message without revisions is then emitted at schema
    version 0, above the version the client declared. *)
Lemma emitted_above_declared_version :
  let srv := Sample.connected (-2) in
  let msg := Sample.StopAllDevices 0 in
  (snd (SendMessage Sample.server (RequestServerInfo "client" (-2) 1))
     = ServerInfo 0 0 0 1 0 "Buttplug JS Internal Server" 1
   /\ _clientSchemaVersion srv = -2)
  /\ OnOutgoingMessage (MS := Sample.schema) (LG := Sample.logging) 0 srv msg
     = Some (mkOutcome None [msg])
  /\ Type_ msg <> "Error"
  /\ _clientSchemaVersion srv
     < Z.of_N (SchemaVersion (MessageSchema := Sample.schema) msg).
Proof.
  cbv zeta. repeat split; try reflexivity. discriminate.
Qed.

(** * Further properties of the server *)

(** ** Dispatch behind the gate *)

Section Dispatched.

Context {DM : DeviceManagerApi}.

Implicit Types (srv : ButtplugServer DM) (aMessage : ButtplugMessage).

(** A message with a [case] of its own is of one of the four classes. *)
Lemma handled_locally_inv aMessage :
  handled_locally aMessage = true ->
  (exists lvl i, aMessage = RequestLog lvl i)
  \/ (exists i, aMessage = Ping i)
  \/ (exists c v i, aMessage = RequestServerInfo c v i)
  \/ (exists t i, aMessage = Test t i).
Proof.
  destruct aMessage as [ | | i | t i | lvl i | | c v i | | name i body fresh];
    intros H; try discriminate H; eauto 8.
  exfalso. unfold handled_locally in H. simpl in H.
  assert (Hcore : core_class name = true).
  { unfold core_class. simpl.
    repeat (apply orb_true_iff in H; destruct H as [H|H]);
      try discriminate H;
      apply String.eqb_eq in H; subst name; reflexivity. }
  congruence.
Qed.

(** X1.  Ping and Test, once the session is open, are answered by the server
    itself and leave it as it was: Ping with Ok, Test with a Test that
    carries the same string, both keyed to the inbound id. *)
Theorem ping_and_test_answered_locally srv id aTestString :
  id <> 0 ->
  _pingTimedOut srv = false ->
  _receivedRequestServerInfo srv = true ->
  SendMessage srv (Ping id) = (srv, Ok id)
  /\ SendMessage srv (Test aTestString id) = (srv, Test aTestString id).
Proof.
  intros Hid Hp Hr. apply Z.eqb_neq in Hid.
  split; unfold SendMessage; simpl Id; now rewrite Hid, Hp, Hr.
Qed.

(** X2.  A message of any class without a [case] of its own, once the session
    is open, goes to the device manager as it is: the answer is the
    device manager's answer, the device manager is the one it returns,
    and no other field of the server changes. *)
Theorem other_messages_delegated srv aMessage :
  Id aMessage <> 0 ->
  _pingTimedOut srv = false ->
  _receivedRequestServerInfo srv = true ->
  handled_locally aMessage = false ->
  SendMessage srv aMessage =
    (mkServer (_clientSchemaVersion srv) (_clientName srv)
       (fst (DeviceManager_SendMessage (_deviceManager srv) aMessage))
       (_pingTimedOut srv) (_receivedRequestServerInfo srv) (_logger srv)
       (_outgoingLogLevel srv) (_serverName srv) (_maxPingTime srv),
     snd (DeviceManager_SendMessage (_deviceManager srv) aMessage)).
Proof.
  intros Hid Hp Hr Hl. apply Z.eqb_neq in Hid.
  unfold SendMessage. rewrite Hid, Hp, Hr. simpl.
  destruct aMessage; try discriminate Hl;
    now destruct (DeviceManager_SendMessage (_deviceManager srv) _).
Qed.

(** X3.  The device manager is called only for a message that passes the
    gate of an open session and has no [case] of its own.  Every other
    message leaves the device manager untouched and is answered by the
    server with a message keyed to the inbound id. *)
Theorem device_manager_called_only_when_open srv aMessage :
  Id aMessage = 0
  \/ _pingTimedOut srv = true
  \/ _receivedRequestServerInfo srv = false
  \/ handled_locally aMessage = true ->
  _deviceManager (fst (SendMessage srv aMessage)) = _deviceManager srv
  /\ Id (snd (SendMessage srv aMessage)) = Id aMessage.
Proof.
  intros Hcase. unfold SendMessage, LogAndError.
  destruct (Id aMessage =? 0) eqn:Hid.
  { apply Z.eqb_eq in Hid. now rewrite Hid. }
  destruct (_pingTimedOut srv) eqn:Hp; [now split|].
  destruct (negb (_receivedRequestServerInfo srv)
            && negb (Type_ aMessage =? "RequestServerInfo")%string) eqn:Hg;
    [now split|].
  assert (Hl : handled_locally aMessage = true).
  { destruct Hcase as [H0|[H1|[Hr|Hl]]]; try assumption.
    - apply Z.eqb_neq in Hid. contradiction.
    - discriminate H1.
    - rewrite Hr in Hg. simpl in Hg. apply negb_false_iff in Hg.
      apply String.eqb_eq in Hg.
      destruct (Type_RequestServerInfo _ Hg) as (c & v & i & ->).
      reflexivity. }
  destruct (handled_locally_inv _ Hl)
    as [(lvl & i & ->) | [(i & ->) | [(c & v & i & ->) | (t & i & ->)]]];
    simpl; try (now split).
  now destruct (1 <? _clientSchemaVersion srv).
Qed.

(** X4.  A handshake sent twice leaves the server where the first one left
    it, in every state and for every version: the second one is either
    refused or records the same values again. *)
Theorem handshake_repeat_same_state srv aClientName aMessageVersion id :
  let handshake := RequestServerInfo aClientName aMessageVersion id in
  fst (SendMessage (fst (SendMessage srv handshake)) handshake)
  = fst (SendMessage srv handshake).
Proof.
  intros handshake.
  destruct (Z.eq_dec id 0) as [H0|Hid].
  { assert (Hs : SendMessage srv handshake = (srv, snd (SendMessage srv handshake))).
    { now rewrite (SendMessage_gate_id srv handshake H0). }
    rewrite Hs. simpl. now rewrite Hs. }
  destruct (_pingTimedOut srv) eqn:Hp.
  { assert (Hs : SendMessage srv handshake = (srv, snd (SendMessage srv handshake))).
    { now rewrite (SendMessage_gate_ping srv handshake Hid Hp). }
    rewrite Hs. simpl. now rewrite Hs. }
  subst handshake.
  rewrite (SendMessage_handshake srv _ _ _ Hid Hp).
  destruct (1 <? _clientSchemaVersion srv) eqn:Hv; simpl.
  - rewrite (SendMessage_handshake srv _ _ _ Hid Hp). now rewrite Hv.
  - rewrite SendMessage_handshake by (simpl; assumption). simpl.
    now destruct (1 <? aMessageVersion).
Qed.

End Dispatched.

(** ** Runs of inbound messages *)

Section Runs.

Context {DM : DeviceManagerApi}.

Implicit Types (srv : ButtplugServer DM) (aMessage : ButtplugMessage).

(** What every single message keeps, every run keeps. *)
Lemma SendMessages_preserves (P : ButtplugServer DM -> Prop) :
  (forall srv aMessage, P srv -> P (fst (SendMessage srv aMessage))) ->
  forall msgs srv, P srv -> P (fst (SendMessages srv msgs)).
Proof.
  intros Hstep. induction msgs as [|m rest IH]; intros srv HP; simpl.
  - exact HP.
  - specialize (Hstep srv m HP).
    destruct (SendMessage srv m) as [srv1 r]. simpl in Hstep.
    specialize (IH srv1 Hstep).
    now destruct (SendMessages srv1 rest).
Qed.

Lemma SendMessage_constants srv aMessage :
  _serverName (fst (SendMessage srv aMessage)) = _serverName srv
  /\ _maxPingTime (fst (SendMessage srv aMessage)) = _maxPingTime srv.
Proof.
  unfold SendMessage, LogAndError.
  destruct (Id aMessage =? 0); [now split|].
  destruct (_pingTimedOut srv); [now split|].
  destruct (negb (_receivedRequestServerInfo srv)
            && negb (Type_ aMessage =? "RequestServerInfo")%string);
    [now split|].
  destruct (1 <? _clientSchemaVersion srv);
    destruct aMessage; simpl; try (now split);
    now destruct (DeviceManager_SendMessage (_deviceManager srv) _).
Qed.

Lemma removeListener_foreign (ls : list Listener) :
  filter (fun x => negb (Listener_eqb OnLogMessage x))
    (removeListener OnLogMessage ls)
  = filter (fun x => negb (Listener_eqb OnLogMessage x)) ls.
Proof.
  induction ls as [|x rest IH]; [reflexivity|].
  simpl removeListener.
  destruct (existsb (Listener_eqb OnLogMessage) rest).
  - destruct x; simpl; [exact IH | f_equal; exact IH].
  - now destruct x.
Qed.

Lemma toggle_log_listener_foreign srv aLogLevel :
  MaximumLogLevel (toggle_log_listener srv aLogLevel)
    = MaximumLogLevel (_logger srv)
  /\ ConsoleLogging (toggle_log_listener srv aLogLevel)
       = ConsoleLogging (_logger srv)
  /\ foreign_listeners (toggle_log_listener srv aLogLevel)
       = foreign_listeners (_logger srv).
Proof.
  unfold toggle_log_listener, foreign_listeners.
  destruct (aLogLevel =? "Off")%string; simpl.
  - repeat split. apply removeListener_foreign.
  - destruct (is_Off (_outgoingLogLevel srv)); simpl; repeat split.
    unfold addListener. rewrite filter_app. simpl. apply app_nil_r.
Qed.

Lemma SendMessage_same_surroundings srv0 srv aMessage :
  same_surroundings srv0 srv ->
  same_surroundings srv0 (fst (SendMessage srv aMessage)).
Proof.
  unfold same_surroundings. intros (Hn & Hm & Hp & Hl & Hc & Hf).
  destruct (SendMessage_constants srv aMessage) as [Hn' Hm'].
  rewrite Hn', Hm', SendMessage_pingTimedOut.
  repeat split; try assumption;
    destruct (SendMessage_logger srv aMessage)
      as [[Hlg _] | (lvl & i & _ & Hlg & _)]; rewrite Hlg;
    try assumption;
    destruct (toggle_log_listener_foreign srv lvl) as (Hl' & Hc' & Hf');
    congruence.
Qed.

End Runs.

Section RunProperties.

Context {DM : DeviceManagerApi}.

Implicit Types (srv : ButtplugServer DM) (aMessage : ButtplugMessage).

Lemma SendMessage_newer_version srv aMessage :
  1 < _clientSchemaVersion srv ->
  _clientSchemaVersion (fst (SendMessage srv aMessage))
    = _clientSchemaVersion srv
  /\ _clientName (fst (SendMessage srv aMessage)) = _clientName srv.
Proof.
  intros Hv. apply Z.ltb_lt in Hv.
  unfold SendMessage, LogAndError.
  destruct (Id aMessage =? 0); [now split|].
  destruct (_pingTimedOut srv); [now split|].
  destruct (negb (_receivedRequestServerInfo srv)
            && negb (Type_ aMessage =? "RequestServerInfo")%string);
    [now split|].
  rewrite Hv.
  destruct aMessage; simpl; try (now split);
    now destruct (DeviceManager_SendMessage (_deviceManager srv) _).
Qed.

(** X5.  No run of inbound messages writes the server name, the maximal ping
    time or the ping flag, nor the logger's maximal level, its console
    switch or the listeners that other owners registered on it. *)
Theorem surroundings_never_written srv msgs :
  same_surroundings srv (fst (SendMessages srv msgs)).
Proof.
  apply (SendMessages_preserves (same_surroundings srv)).
  - intros s m. apply SendMessage_same_surroundings.
  - unfold same_surroundings. repeat split.
Qed.

(** X6.  Once a handshake was received, it stays received along every run of
    inbound messages: nothing closes an open session again. *)
Theorem handshake_received_is_permanent srv msgs :
  _receivedRequestServerInfo srv = true ->
  _receivedRequestServerInfo (fst (SendMessages srv msgs)) = true.
Proof.
  apply (SendMessages_preserves
           (fun s => _receivedRequestServerInfo s = true)).
  intros s m Hs.
  destruct (SendMessage_version s m)
    as [(_ & _ & Hr) | (_ & _ & _ & _ & _ & _ & Hr & _)];
    [now rewrite Hr | exact Hr].
Qed.

(** X7.  A server that holds a client version above 1 keeps that version and
    the client name along every run of inbound messages, and refuses
    every handshake that passes the gate, whatever version it asks for. *)
Theorem newer_version_is_permanent srv :
  1 < _clientSchemaVersion srv ->
  (forall msgs,
     _clientSchemaVersion (fst (SendMessages srv msgs))
       = _clientSchemaVersion srv
     /\ _clientName (fst (SendMessages srv msgs)) = _clientName srv)
  /\ (forall aClientName aMessageVersion id,
        id <> 0 ->
        _pingTimedOut srv = false ->
        exists text,
          SendMessage srv (RequestServerInfo aClientName aMessageVersion id)
          = (srv, Error text ERROR_INIT id)).
Proof.
  intros Hv. split.
  - intros msgs.
    apply (SendMessages_preserves
             (fun s => _clientSchemaVersion s = _clientSchemaVersion srv
                       /\ _clientName s = _clientName srv)).
    + intros s m [Hs Hn].
      destruct (SendMessage_newer_version s m) as [Hs' Hn'].
      * now rewrite Hs.
      * now rewrite Hs', Hn'.
    + now split.
  - intros c v id Hid Hp.
    rewrite (SendMessage_handshake srv c v id Hid Hp).
    apply Z.ltb_lt in Hv. rewrite Hv. eauto.
Qed.

(** X8.  Before the handshake, a run of messages none of which is a
    RequestServerInfo leaves the server, its device manager included,
    exactly as it was.  Each message is answered with an Error keyed to
    its id: of class ERROR_MSG when its id is 0 or the ping has timed
    out, of class ERROR_INIT otherwise. *)
Theorem closed_session_answers_errors srv msgs :
  _receivedRequestServerInfo srv = false ->
  Forall (fun m => Type_ m <> "RequestServerInfo") msgs ->
  fst (SendMessages srv msgs) = srv
  /\ Forall2
       (fun m r =>
          exists text,
            r = Error text
                  (if (Id m =? 0) || _pingTimedOut srv
                   then ERROR_MSG else ERROR_INIT)
                  (Id m))
       msgs (snd (SendMessages srv msgs)).
Proof.
  intros Hr Hall. induction Hall as [|m rest Hm _ IH]; simpl.
  - split; [reflexivity | constructor].
  - assert (Hs : exists text,
               SendMessage srv m =
                 (srv, Error text
                         (if (Id m =? 0) || _pingTimedOut srv
                          then ERROR_MSG else ERROR_INIT) (Id m))).
    { destruct (Z.eq_dec (Id m) 0) as [H0|Hid].
      - rewrite (SendMessage_gate_id srv m H0), H0. simpl. eauto.
      - pose proof Hid as Hid'. apply Z.eqb_neq in Hid'. rewrite Hid'.
        destruct (_pingTimedOut srv) eqn:Hp; simpl.
        + rewrite (SendMessage_gate_ping srv m Hid Hp). eauto.
        + rewrite (SendMessage_gate_init srv m Hid Hp Hr Hm). eauto. }
    destruct Hs as [text Hs]. rewrite Hs.
    destruct (SendMessages srv rest) as [srv2 rs]. simpl in *.
    destruct IH as [IH1 IH2]. split; [exact IH1|].
    constructor; [now exists text | exact IH2].
Qed.

End RunProperties.

(** ** Invariants of the session *)

Section SessionInvariants.

Context {DM : DeviceManagerApi}.

Implicit Types (srv : ButtplugServer DM) (aMessage : ButtplugMessage).

(** The outgoing level changes only in an open session. *)
Lemma SendMessage_level srv aMessage :
  _outgoingLogLevel (fst (SendMessage srv aMessage)) = _outgoingLogLevel srv
  \/ _receivedRequestServerInfo srv = true.
Proof.
  destruct (_receivedRequestServerInfo srv) eqn:Hr; [now right|left].
  destruct (SendMessage_logger srv aMessage)
    as [[_ Ho] | (lvl & i & -> & _ & _)]; [exact Ho|].
  unfold SendMessage, LogAndError. simpl Id. simpl Type_.
  destruct (i =? 0); [reflexivity|].
  destruct (_pingTimedOut srv); [reflexivity|].
  rewrite Hr. reflexivity.
Qed.

Lemma SendMessage_received_kept srv aMessage :
  _receivedRequestServerInfo srv = true ->
  _receivedRequestServerInfo (fst (SendMessage srv aMessage)) = true.
Proof.
  intros Hs.
  destruct (SendMessage_version srv aMessage)
    as [(_ & _ & Hr) | (_ & _ & _ & _ & _ & _ & Hr & _)];
    [now rewrite Hr | exact Hr].
Qed.

(** The session fields of the handshake: unset together, and the name
    set with the flag. *)
Lemma reachable_handshake_fields srv :
  reachable srv ->
  (_receivedRequestServerInfo srv = false ->
   _clientSchemaVersion srv = -1 /\ _clientName srv = None)
  /\ (_receivedRequestServerInfo srv = true -> _clientName srv <> None).
Proof.
  induction 1 as [name ping lg Hlg | srv m _ IH | srv mgr _ IH | srv _ IH];
    try exact IH.
  - simpl. split; [now split | discriminate].
  - destruct (SendMessage_version srv m)
      as [(Hv & Hn & Hr) | (c & v & i & _ & Hv & Hn & Hr & _)];
      rewrite ?Hv, Hn, Hr.
    + exact IH.
    + split; discriminate.
Qed.

(** The relay is active only in an open session. *)
Lemma reachable_level_open srv :
  reachable srv ->
  is_Off (_outgoingLogLevel srv) = true
  \/ _receivedRequestServerInfo srv = true.
Proof.
  induction 1 as [name ping lg Hlg | srv m _ IH | srv mgr _ IH | srv _ IH];
    try exact IH.
  - now left.
  - destruct (SendMessage_level srv m) as [Ho|Hr].
    + destruct IH as [IH|IH];
        [left; now rewrite Ho
        | right; now apply SendMessage_received_kept].
    + right. now apply SendMessage_received_kept.
Qed.

(** X9.  In every state the server can reach, as long as no handshake
    was received the stored client version is -1, and the client name is
    unset exactly as long as no handshake was received. *)
Theorem version_unset_until_handshake srv :
  reachable srv ->
  (_receivedRequestServerInfo srv = false -> _clientSchemaVersion srv = -1)
  /\ (_receivedRequestServerInfo srv = false <-> _clientName srv = None).
Proof.
  intros Hreach.
  destruct (reachable_handshake_fields srv Hreach) as [Hclosed Hopen].
  split; [intros Hr; now apply Hclosed|]. split.
  - intros Hr. now apply Hclosed.
  - intros Hn. destruct (_receivedRequestServerInfo srv); [|reflexivity].
    now elim (Hopen eq_refl).
Qed.

(** X10.  In every state the server can reach, the log relay is
    registered only after a handshake: if [OnLogMessage] is among the
    logger's listeners, the handshake was received. *)
Theorem relay_registered_only_when_open srv :
  reachable srv ->
  subscriptions srv <> O ->
  _receivedRequestServerInfo srv = true.
Proof.
  intros Hreach Hsub.
  pose proof (reachable_relay_in_step srv Hreach) as Hstep.
  unfold relay_in_step in Hstep.
  destruct (reachable_level_open srv Hreach) as [Hoff|Hr]; [|exact Hr].
  rewrite Hoff in Hstep. contradiction.
Qed.

End SessionInvariants.

(** ** The downgrade loop and the channel, further *)

Section Channel.

Context {DM : DeviceManagerApi} {MS : MessageSchema} {LG : LoggingApi}.

Implicit Types (srv : ButtplugServer DM) (msg : ButtplugMessage).

Lemma loop_test_true_iff target msg :
  negb (Z.of_N (SchemaVersion msg) =? target)
  && (0 <? SchemaVersion msg)%N = true <->
  Z.of_N (SchemaVersion msg) <> target /\ (0 < SchemaVersion msg)%N.
Proof.
  rewrite andb_true_iff, negb_true_iff, Z.eqb_neq, N.ltb_lt. tauto.
Qed.

Lemma downgrade_loop_at_exit fuel target msg :
  Z.of_N (SchemaVersion msg) = target \/ SchemaVersion msg = 0%N ->
  downgrade_loop fuel target msg = Some msg.
Proof.
  intros Hexit.
  assert (Ht : negb (Z.of_N (SchemaVersion msg) =? target)
               && (0 <? SchemaVersion msg)%N = false).
  { apply not_true_is_false. intros Ht. apply loop_test_true_iff in Ht.
    destruct Ht as [Hne Hpos]. destruct Hexit as [He|H0]; [contradiction|].
    rewrite H0 in Hpos. now apply N.lt_irrefl in Hpos. }
  destruct fuel; simpl; now rewrite Ht.
Qed.

(** X11.  When the loop returns, it returns the first message of the downgrade
    chain whose schema version is the target or 0: it is reached within
    the iterations that were run, and every message of the chain before
    it is versioned and not at the target. *)
Theorem downgrade_loop_stops_at_first fuel : forall target msg r,
  downgrade_loop fuel target msg = Some r ->
  exists k,
    (k <= fuel)%nat
    /\ r = downgrade_chain k msg
    /\ (Z.of_N (SchemaVersion r) = target \/ SchemaVersion r = 0%N)
    /\ forall j, (j < k)%nat ->
         Z.of_N (SchemaVersion (downgrade_chain j msg)) <> target
         /\ (0 < SchemaVersion (downgrade_chain j msg))%N.
Proof.
  induction fuel as [|fuel IH]; intros target msg r; simpl;
    destruct (negb (Z.of_N (SchemaVersion msg) =? target)
              && (0 <? SchemaVersion msg)%N) eqn:Ht;
    intros H; try discriminate H.
  - injection H as <-. exists O. repeat split; try lia.
    now apply loop_test_false.
  - destruct (IH _ _ _ H) as (k & Hk & Hr & Hexit & Hbefore).
    exists (S k). split; [lia|]. split; [exact Hr|].
    split; [exact Hexit|].
    intros [|j] Hj; simpl.
    + now apply loop_test_true_iff.
    + apply Hbefore. lia.
  - injection H as <-. exists O. repeat split; try lia.
    now apply loop_test_false.
Qed.

(** X12.  The loop runs out of every number of iterations exactly when every
    message of the downgrade chain is versioned and not at the target;
    so a versioned message off the target that downgrades to itself is
    never left. *)
Theorem downgrade_loop_never_returns_iff target msg :
  (forall fuel, downgrade_loop fuel target msg = None)
  <-> (forall k,
         Z.of_N (SchemaVersion (downgrade_chain k msg)) <> target
         /\ (0 < SchemaVersion (downgrade_chain k msg))%N).
Proof.
  split.
  - intros Hnone k. revert msg Hnone.
    induction k as [|k IH]; intros msg Hnone.
    + simpl. apply loop_test_true_iff.
      specialize (Hnone O). simpl in Hnone.
      destruct (negb (Z.of_N (SchemaVersion msg) =? target)
                && (0 <? SchemaVersion msg)%N);
        [reflexivity | discriminate Hnone].
    + simpl. apply IH. intros fuel.
      specialize (Hnone (S fuel)). simpl in Hnone.
      destruct (negb (Z.of_N (SchemaVersion msg) =? target)
                && (0 <? SchemaVersion msg)%N);
        [exact Hnone | discriminate Hnone].
  - intros Hall fuel. revert msg Hall.
    induction fuel as [|fuel IH]; intros msg Hall;
      pose proof (proj2 (loop_test_true_iff target msg) (Hall O)) as Ht;
      simpl; rewrite Ht; [reflexivity|].
    apply IH. intros k. exact (Hall (S k)).
Qed.

(** X13.  A published message that is not an Error and is already at the
    negotiated version, or has no version, is emitted as it is, without
    a single downgrade and whatever its downgrade would be. *)
Theorem message_at_client_version_emitted_unchanged fuel srv msg :
  Type_ msg <> "Error" ->
  _clientSchemaVersion srv <> -1 ->
  Z.of_N (SchemaVersion msg) = _clientSchemaVersion srv
  \/ SchemaVersion msg = 0%N ->
  OnOutgoingMessage fuel srv msg = Some (mkOutcome None [msg]).
Proof.
  intros Ht Hset Hexit. rewrite OnOutgoingMessage_eq.
  apply String.eqb_neq in Ht. apply Z.eqb_neq in Hset.
  rewrite Ht, Hset. now rewrite downgrade_loop_at_exit, Ht.
Qed.

(** X14.  In every state the server can reach before a handshake, the outgoing
    channel emits nothing, for every published message: the call ends
    without entering the loop and only returns a value, the message
    itself if it is an Error and the version Error otherwise. *)
Theorem nothing_emitted_before_handshake fuel srv msg :
  reachable srv ->
  _receivedRequestServerInfo srv = false ->
  OnOutgoingMessage fuel srv msg =
    Some (mkOutcome
            (Some (if (Type_ msg =? "Error")%string then msg
                   else Error
                          "Cannot discern client schema version. Was RequestServerInfo message sent?"
                          DefaultErrorClass DefaultErrorId))
            []).
Proof.
  intros Hreach Hr.
  destruct (proj1 (reachable_handshake_fields srv Hreach) Hr) as [Hv _].
  rewrite OnOutgoingMessage_eq. rewrite Hv.
  now destruct (Type_ msg =? "Error")%string.
Qed.

(** One "log" event with the relay registered once makes one call of it,
    and none when it is not registered. *)
Lemma relay_each_subscriptions (ls : list Listener) one :
  (List.length (filter (Listener_eqb OnLogMessage) ls) = O ->
   forall relayed, relay_each ls relayed = Some [])
  /\ (List.length (filter (Listener_eqb OnLogMessage) ls) = 1%nat ->
      relay_each ls (Some one) = Some one).
Proof.
  induction ls as [|[|n] rest [IH0 IH1]]; simpl.
  - split; [reflexivity | discriminate].
  - split; [discriminate|]. intros H. injection H as H.
    rewrite (IH0 H). now rewrite app_nil_r.
  - split; assumption.
Qed.

(** X15.  When the downgrade of a published message ends in an Error,
    [_logger.Error] runs before the Error is emitted.  If the relay is
    not registered, the logger does not emit error entries or the
    outgoing level is below Error, the Error is emitted alone.  If the
    relay is registered once and the error entry passes both, a Log
    message with level name "Error" and the text of the Error goes
    through the channel first: where that Log is at the client version
    or without version, the channel emits the Log and then the Error. *)
Theorem failed_downgrade_relays_log_first fuel srv msg aText aClass aId :
  Type_ msg <> "Error" ->
  _clientSchemaVersion srv <> -1 ->
  downgrade_loop (S fuel) (_clientSchemaVersion srv) msg
    = Some (Error aText aClass aId) ->
  (subscriptions srv = O
   \/ Logger_emits (_logger srv) LError = false
   \/ above_outgoing_level srv (mkLogMessage LError aText) = true ->
   OnOutgoingMessage (S fuel) srv msg
   = Some (mkOutcome None [Error aText aClass aId]))
  /\ (subscriptions srv = 1%nat ->
      Logger_emits (_logger srv) LError = true ->
      above_outgoing_level srv (mkLogMessage LError aText) = false ->
      Z.of_N (SchemaVersion (Log "Error" aText DefaultLogId))
        = _clientSchemaVersion srv
      \/ SchemaVersion (Log "Error" aText DefaultLogId) = 0%N ->
      OnOutgoingMessage (S fuel) srv msg
      = Some (mkOutcome None
                [Log "Error" aText DefaultLogId; Error aText aClass aId])).
Proof.
  intros Ht Hset Hloop.
  pose proof Ht as Ht'. apply String.eqb_neq in Ht'.
  pose proof Hset as Hset'. apply Z.eqb_neq in Hset'.
  assert (Hbody : OnOutgoingMessage (S fuel) srv msg =
            match ButtplugLogger_Error (_logger srv) (OnLogMessage_ fuel srv)
                    aText with
            | None => None
            | Some logs =>
                Some (mkOutcome None (logs ++ [Error aText aClass aId])%list)
            end).
  { rewrite OnOutgoingMessage_eq, Ht', Hset', Hloop. reflexivity. }
  rewrite Hbody. unfold ButtplugLogger_Error, subscriptions. split.
  - intros [Hnone|[Hquiet|Habove]].
    + destruct (Logger_emits (_logger srv) LError); [|reflexivity].
      now rewrite (proj1 (relay_each_subscriptions _ []) Hnone).
    + now rewrite Hquiet.
    + destruct (Logger_emits (_logger srv) LError); [|reflexivity].
      unfold OnLogMessage_, OnLogMessage_to. rewrite Habove.
      destruct (relay_each_subscriptions (listeners (_logger srv)) [])
        as [H0 H1].
      destruct (List.length
                  (filter (Listener_eqb OnLogMessage)
                     (listeners (_logger srv)))) as [|[|k]] eqn:Hk.
      * now rewrite H0.
      * now rewrite H1.
      * clear H0 H1 Hk Hbody.
        induction (listeners (_logger srv)) as [|[|n] rest IH]; simpl;
          try reflexivity; try exact IH.
        destruct (relay_each rest (Some [])) as [others|];
          [|discriminate IH].
        injection IH as IH. simpl. now rewrite IH.
  - intros Hone Hemits Hbelow Hexit. rewrite Hemits.
    unfold OnLogMessage_, OnLogMessage_to. rewrite Hbelow. simpl.
    rewrite OnOutgoingMessage_eq. simpl Type_. simpl String.eqb.
    rewrite Hset'. rewrite (downgrade_loop_at_exit _ _ _ Hexit).
    simpl. now rewrite (proj2 (relay_each_subscriptions _ _) Hone).
Qed.

End Channel.

(** ** Subscribing and unsubscribing the relay *)

Lemma removeListener_addListener (l : Listener) (ls : list Listener) :
  Listener_eqb l l = true ->
  removeListener l (addListener l ls) = ls.
Proof.
  intros Hl. unfold addListener.
  induction ls as [|x rest IH]; simpl.
  - now rewrite Hl.
  - assert (He : existsb (Listener_eqb l) (rest ++ [l]) = true).
    { rewrite existsb_app. simpl. rewrite Hl. apply orb_true_r. }
    now rewrite He, IH.
Qed.

Section RelayRoundTrip.

Context {DM : DeviceManagerApi}.

Implicit Types (srv : ButtplugServer DM).

(** X16.  In an open session whose outgoing level is Off, a RequestLog for a
    level other than Off followed by a RequestLog for Off puts the server
    back exactly where it was: the listener that the first one appended
    is the one the second removes, and the order of the other listeners
    is kept. *)
Theorem relay_subscribe_unsubscribe_round_trip srv aLogLevel id offId :
  id <> 0 ->
  offId <> 0 ->
  _pingTimedOut srv = false ->
  _receivedRequestServerInfo srv = true ->
  _outgoingLogLevel srv = Some Off ->
  aLogLevel <> "Off" ->
  fst (SendMessage (fst (SendMessage srv (RequestLog aLogLevel id)))
         (RequestLog "Off" offId)) = srv.
Proof.
  intros Hid Hoff Hp Hr Hlevel Hname.
  rewrite (SendMessage_RequestLog srv aLogLevel id Hid Hp Hr). simpl fst.
  rewrite SendMessage_RequestLog by assumption. simpl.
  apply String.eqb_neq in Hname.
  destruct srv as [v n dm p r [mx cl ls] lv sn mp]. simpl in *.
  subst p r lv. unfold toggle_log_listener. simpl.
  rewrite Hname. simpl.
  now rewrite removeListener_addListener.
Qed.

End RelayRoundTrip.

(** ** Concrete sessions, further *)

Lemma ping_and_test_answered_locally_witness :
  (5 <> 0
   /\ _pingTimedOut (Sample.connected 1) = false
   /\ _receivedRequestServerInfo (Sample.connected 1) = true)
  /\ SendMessage (Sample.connected 1) (Ping 5) = (Sample.connected 1, Ok 5)
  /\ SendMessage (Sample.connected 1) (Test "x" 5)
     = (Sample.connected 1, Test "x" 5).
Proof.
  split; [repeat split; try reflexivity; discriminate|].
  apply (ping_and_test_answered_locally (Sample.connected 1) 5 "x");
    try reflexivity; discriminate.
Defined.

Lemma other_messages_delegated_witness :
  (Id (Sample.StopAllDevices 4) <> 0
   /\ _pingTimedOut (Sample.connected 1) = false
   /\ _receivedRequestServerInfo (Sample.connected 1) = true
   /\ handled_locally (Sample.StopAllDevices 4) = false)
  /\ SendMessage (Sample.connected 1) (Sample.StopAllDevices 4) =
       (mkServer (DM := Sample.devices) 1 (Some "client") 1%nat false true
                 (mkLogger Debug true [Foreign 7]) (Some Off)
                 "Buttplug JS Internal Server" 0%N,
        Error "No handler" ERROR_MSG 4).
Proof.
  split; [repeat split; try reflexivity; discriminate|].
  apply (other_messages_delegated (Sample.connected 1)
           (Sample.StopAllDevices 4));
    try reflexivity; discriminate.
Defined.

Lemma device_manager_called_only_when_open_witness :
  _receivedRequestServerInfo Sample.server = false
  /\ _deviceManager (fst (SendMessage Sample.server (Sample.StopAllDevices 4)))
     = _deviceManager Sample.server
  /\ Id (snd (SendMessage Sample.server (Sample.StopAllDevices 4))) = 4.
Proof.
  split; [reflexivity|].
  apply (device_manager_called_only_when_open Sample.server
           (Sample.StopAllDevices 4)).
  right. right. left. reflexivity.
Defined.

Lemma handshake_received_is_permanent_witness :
  _receivedRequestServerInfo (Sample.connected 1) = true
  /\ _receivedRequestServerInfo
       (fst (SendMessages (Sample.connected 1)
               [RequestLog "Debug" 2; Sample.StopAllDevices 3;
                RequestServerInfo "again" 0 4; Ping 0]))
     = true.
Proof.
  split; [reflexivity|].
  apply (handshake_received_is_permanent (Sample.connected 1)).
  reflexivity.
Defined.

Lemma newer_version_is_permanent_witness :
  1 < _clientSchemaVersion (Sample.connected 3)
  /\ (_clientSchemaVersion
        (fst (SendMessages (Sample.connected 3)
                [RequestServerInfo "again" 1 2; Ping 3]))
      = _clientSchemaVersion (Sample.connected 3)
      /\ _clientName
           (fst (SendMessages (Sample.connected 3)
                   [RequestServerInfo "again" 1 2; Ping 3]))
         = _clientName (Sample.connected 3))
  /\ exists text,
       SendMessage (Sample.connected 3) (RequestServerInfo "again" 1 2)
       = (Sample.connected 3, Error text ERROR_INIT 2).
Proof.
  assert (Hv : 1 < _clientSchemaVersion (Sample.connected 3))
    by reflexivity.
  split; [exact Hv|].
  destruct (newer_version_is_permanent (Sample.connected 3) Hv)
    as [Hrun Hrefused].
  split; [apply Hrun|].
  apply Hrefused; [discriminate | reflexivity].
Defined.

Lemma closed_session_answers_errors_witness :
  let msgs := [Ping 2; Sample.StopAllDevices 0; Test "x" 3] in
  (_receivedRequestServerInfo Sample.server = false
   /\ Forall (fun m => Type_ m <> "RequestServerInfo") msgs)
  /\ fst (SendMessages Sample.server msgs) = Sample.server
  /\ Forall2
       (fun m r =>
          exists text,
            r = Error text
                  (if (Id m =? 0) || _pingTimedOut Sample.server
                   then ERROR_MSG else ERROR_INIT)
                  (Id m))
       msgs (snd (SendMessages Sample.server msgs)).
Proof.
  cbv zeta.
  assert (Hall : Forall (fun m => Type_ m <> "RequestServerInfo")
                   [Ping 2; Sample.StopAllDevices 0; Test "x" 3]).
  { repeat constructor; discriminate. }
  split; [split; [reflexivity | exact Hall]|].
  apply (closed_session_answers_errors Sample.server); [reflexivity | exact Hall].
Defined.

Lemma version_unset_until_handshake_witness :
  reachable (PingTimeout Sample.server)
  /\ (_receivedRequestServerInfo (PingTimeout Sample.server) = false ->
      _clientSchemaVersion (PingTimeout Sample.server) = -1)
  /\ (_receivedRequestServerInfo (PingTimeout Sample.server) = false
      <-> _clientName (PingTimeout Sample.server) = None).
Proof.
  assert (Hreach : reachable (PingTimeout Sample.server)).
  { apply reach_PingTimeout, reach_new. reflexivity. }
  split; [exact Hreach|].
  apply (version_unset_until_handshake (PingTimeout Sample.server) Hreach).
Defined.

Lemma relay_registered_only_when_open_witness :
  let srv := fst (SendMessage (Sample.connected 1) (RequestLog "Debug" 2)) in
  (reachable srv /\ subscriptions srv <> O)
  /\ _receivedRequestServerInfo srv = true.
Proof.
  cbv zeta.
  assert (Hreach : reachable
                     (fst (SendMessage (Sample.connected 1)
                             (RequestLog "Debug" 2)))).
  { apply reach_SendMessage, sample_connected_reachable. }
  split; [split; [exact Hreach | discriminate]|].
  apply (relay_registered_only_when_open _ Hreach). discriminate.
Defined.

Lemma downgrade_loop_stops_at_first_witness :
  downgrade_loop (MS := Sample.schema) 5 0 (Sample.VibrateCmd 9)
    = Some (Other "SingleMotorVibrateCmd" 9 "{Speeds:[0.5]}" eq_refl)
  /\ exists k,
       (k <= 5)%nat
       /\ Other "SingleMotorVibrateCmd" 9 "{Speeds:[0.5]}" eq_refl
          = downgrade_chain (MS := Sample.schema) k (Sample.VibrateCmd 9)
       /\ (Z.of_N (SchemaVersion (MessageSchema := Sample.schema)
                     (Other "SingleMotorVibrateCmd" 9 "{Speeds:[0.5]}" eq_refl))
           = 0
           \/ SchemaVersion (MessageSchema := Sample.schema)
                (Other "SingleMotorVibrateCmd" 9 "{Speeds:[0.5]}" eq_refl)
              = 0%N)
       /\ forall j, (j < k)%nat ->
            Z.of_N (SchemaVersion (MessageSchema := Sample.schema)
                      (downgrade_chain (MS := Sample.schema) j
                         (Sample.VibrateCmd 9))) <> 0
            /\ (0 < SchemaVersion (MessageSchema := Sample.schema)
                      (downgrade_chain (MS := Sample.schema) j
                         (Sample.VibrateCmd 9)))%N.
Proof.
  split; [reflexivity|].
  apply (downgrade_loop_stops_at_first (MS := Sample.schema) 5 0
           (Sample.VibrateCmd 9)).
  reflexivity.
Defined.

Lemma downgrade_loop_never_returns_iff_witness :
  DowngradeMessage (MessageSchema := Sample.stuck_schema)
    (Sample.VibrateCmd 9) = Sample.VibrateCmd 9
  /\ forall fuel,
       downgrade_loop (MS := Sample.stuck_schema) fuel 1 (Sample.VibrateCmd 9)
       = None.
Proof.
  split; [reflexivity|].
  apply (proj2 (downgrade_loop_never_returns_iff (MS := Sample.stuck_schema)
                  1 (Sample.VibrateCmd 9))).
  intros k. split.
  - discriminate.
  - reflexivity.
Defined.

Lemma message_at_client_version_emitted_unchanged_witness :
  (Type_ (Sample.VibrateCmd 9) <> "Error"
   /\ _clientSchemaVersion (Sample.connected 1) <> -1
   /\ (Z.of_N (SchemaVersion (MessageSchema := Sample.schema)
                 (Sample.VibrateCmd 9))
       = _clientSchemaVersion (Sample.connected 1)
       \/ SchemaVersion (MessageSchema := Sample.schema)
            (Sample.VibrateCmd 9) = 0%N))
  /\ OnOutgoingMessage (MS := Sample.schema) (LG := Sample.logging) O
       (Sample.connected 1) (Sample.VibrateCmd 9)
     = Some (mkOutcome None [Sample.VibrateCmd 9]).
Proof.
  split; [repeat split; try discriminate; left; reflexivity|].
  apply (message_at_client_version_emitted_unchanged (MS := Sample.schema)
           (LG := Sample.logging) O (Sample.connected 1)
           (Sample.VibrateCmd 9));
    try discriminate.
  left. reflexivity.
Defined.

Lemma nothing_emitted_before_handshake_witness :
  (reachable Sample.server
   /\ _receivedRequestServerInfo Sample.server = false)
  /\ OnOutgoingMessage (MS := Sample.stuck_schema) (LG := Sample.logging) O
       Sample.server (Sample.VibrateCmd 9)
     = Some (mkOutcome
               (Some (Error
                        "Cannot discern client schema version. Was RequestServerInfo message sent?"
                        (ERROR_OTHER 0) 0))
               []).
Proof.
  assert (Hreach : reachable Sample.server).
  { apply reach_new. reflexivity. }
  split; [split; [exact Hreach | reflexivity]|].
  apply (nothing_emitted_before_handshake (MS := Sample.stuck_schema)
           (LG := Sample.logging) O Sample.server (Sample.VibrateCmd 9)
           Hreach).
  reflexivity.
Defined.

Lemma failed_downgrade_relays_log_first_witness :
  let srv := fst (SendMessage (Sample.connected 0) (RequestLog "Debug" 2)) in
  let failure := Error "No older form of this message" ERROR_MSG 9 in
  (Type_ (Sample.LinearCmd 9) <> "Error"
   /\ _clientSchemaVersion srv <> -1
   /\ downgrade_loop (MS := Sample.strict_schema) 1
        (_clientSchemaVersion srv) (Sample.LinearCmd 9) = Some failure
   /\ subscriptions srv = 1%nat)
  /\ OnOutgoingMessage (MS := Sample.strict_schema) (LG := Sample.logging)
       1 srv (Sample.LinearCmd 9)
     = Some (mkOutcome None
               [Log "Error" "No older form of this message" 0; failure])
  /\ OnOutgoingMessage (MS := Sample.strict_schema) (LG := Sample.logging)
       1 (Sample.connected 0) (Sample.LinearCmd 9)
     = Some (mkOutcome None [failure]).
Proof.
  cbv zeta.
  split; [repeat split; try reflexivity; discriminate|].
  split.
  - apply (proj2 (failed_downgrade_relays_log_first
                    (MS := Sample.strict_schema) (LG := Sample.logging)
                    O (fst (SendMessage (Sample.connected 0)
                              (RequestLog "Debug" 2)))
                    (Sample.LinearCmd 9)
                    "No older form of this message" ERROR_MSG 9
                    ltac:(discriminate) ltac:(discriminate) eq_refl));
      try reflexivity.
    right. reflexivity.
  - apply (proj1 (failed_downgrade_relays_log_first
                    (MS := Sample.strict_schema) (LG := Sample.logging)
                    O (Sample.connected 0) (Sample.LinearCmd 9)
                    "No older form of this message" ERROR_MSG 9
                    ltac:(discriminate) ltac:(discriminate) eq_refl)).
    left. reflexivity.
Defined.

Lemma relay_subscribe_unsubscribe_round_trip_witness :
  (2 <> 0 /\ 3 <> 0
   /\ _pingTimedOut (Sample.connected 1) = false
   /\ _receivedRequestServerInfo (Sample.connected 1) = true
   /\ _outgoingLogLevel (Sample.connected 1) = Some Off
   /\ "Debug" <> "Off")
  /\ fst (SendMessage
            (fst (SendMessage (Sample.connected 1) (RequestLog "Debug" 2)))
            (RequestLog "Off" 3))
     = Sample.connected 1.
Proof.
  split; [repeat split; try reflexivity; discriminate|].
  apply (relay_subscribe_unsubscribe_round_trip (Sample.connected 1)
           "Debug" 2 3);
    try reflexivity; discriminate.
Defined.

(** ** A handshake at the unset version *)

Section UnsetVersion.

Context {DM : DeviceManagerApi} {MS : MessageSchema} {LG : LoggingApi}.

Implicit Types (srv : ButtplugServer DM) (msg : ButtplugMessage).

(** X17.  The server accepts a handshake that declares version -1, the
    value it keeps for "no version yet": the handshake is answered
    ServerInfo and marked as received, and the outgoing channel goes on
    as before any handshake, emitting nothing and returning the version
    Error for every published message that is not an Error. *)
Theorem handshake_at_unset_version_keeps_channel_closed
    srv aClientName id fuel msg :
  id <> 0 ->
  _pingTimedOut srv = false ->
  _clientSchemaVersion srv <= 1 ->
  Type_ msg <> "Error" ->
  let after := fst (SendMessage srv (RequestServerInfo aClientName (-1) id)) in
  snd (SendMessage srv (RequestServerInfo aClientName (-1) id))
    = ServerInfo 0 0 0 1 (_maxPingTime srv) (_serverName srv) id
  /\ _receivedRequestServerInfo after = true
  /\ OnOutgoingMessage fuel after msg =
       Some (mkOutcome
               (Some (Error
                        "Cannot discern client schema version. Was RequestServerInfo message sent?"
                        DefaultErrorClass DefaultErrorId))
               []).
Proof.
  intros Hid Hp Hv Ht after. subst after.
  rewrite (SendMessage_handshake srv aClientName (-1) id Hid Hp).
  assert (Hle : (1 <? _clientSchemaVersion srv) = false)
    by (apply Z.ltb_ge; exact Hv).
  rewrite Hle. simpl fst. simpl snd.
  split; [reflexivity|]. split; [reflexivity|].
  rewrite OnOutgoingMessage_eq. apply String.eqb_neq in Ht.
  now rewrite Ht.
Qed.

End UnsetVersion.

Lemma handshake_at_unset_version_keeps_channel_closed_witness :
  (1 <> 0
   /\ _pingTimedOut Sample.server = false
   /\ _clientSchemaVersion Sample.server <= 1
   /\ Type_ (Sample.StopAllDevices 0) <> "Error")
  /\ snd (SendMessage Sample.server (RequestServerInfo "client" (-1) 1))
     = ServerInfo 0 0 0 1 0 "Buttplug JS Internal Server" 1
  /\ _receivedRequestServerInfo (Sample.connected (-1)) = true
  /\ OnOutgoingMessage (MS := Sample.schema) (LG := Sample.logging) 3
       (Sample.connected (-1)) (Sample.StopAllDevices 0)
     = Some (mkOutcome
               (Some (Error
                        "Cannot discern client schema version. Was RequestServerInfo message sent?"
                        (ERROR_OTHER 0) 0))
               []).
Proof.
  split; [repeat split; try reflexivity; discriminate|].
  apply (handshake_at_unset_version_keeps_channel_closed
           (MS := Sample.schema) (LG := Sample.logging)
           Sample.server "client" 1 3 (Sample.StopAllDevices 0));
    try reflexivity; discriminate.
Defined.
